(** * site-status: the monitor aggregation, the cache gate, the status
      rollup and the key-substituting proxy

    A shallow embedding of [getSiteData], [getMonitorsData],
    [dataProcessing] and [changeSite] (the data helpers of the dashboard)
    and of the proxy handler, followed by the properties established
    about them.

    Conventions.
    - A JavaScript value that may be [undefined] is an [option].
    - A computation that may throw returns a [completion].
    - Numbers that the code only counts, adds and compares (log durations,
      unix seconds, millisecond clocks, status codes) are [Z]: they are
      integers far below 2^53, where JavaScript arithmetic is exact.
    - Strings are [string]; each character stands for one code unit. *)

From Stdlib Require Import ZArith Lia Ascii String Permutation Sorted.
From stdpp Require Import base option list strings pretty gmap.

Open Scope string_scope.
Open Scope list_scope.
Open Scope Z_scope.

(* ===================================================================== *)
(** ** Completions: normal return or a thrown error *)
(* ===================================================================== *)

Inductive JsError : Type :=
  | TypeError                      (* property access on undefined/null *)
  | ApiError (message : string)    (* new Error("API Error: ...") *)
  | AxiosError.                    (* transport failure, timeout, non-2xx *)

Inductive completion (A : Type) : Type :=
  | Normal (a : A)
  | Throw (e : JsError).
Arguments Normal {A} a.
Arguments Throw {A} e.

Definition bind {A B} (c : completion A) (k : A -> completion B) : completion B :=
  match c with
  | Normal a => k a
  | Throw e => Throw e
  end.

Notation "x <-! c ; k" := (bind c (fun x => k))
  (at level 100, c at next level, right associativity).

(** [Array.prototype.map] and [reduce] with a callback that may throw: the
    first exception aborts the traversal. *)
Fixpoint mapM {A B} (f : A -> completion B) (l : list A) : completion (list B) :=
  match l with
  | [] => Normal []
  | a :: l' => b <-! f a; bs <-! mapM f l'; Normal (b :: bs)
  end.

Fixpoint reduceM {A St} (f : St -> A -> completion St) (l : list A) (s : St) : completion St :=
  match l with
  | [] => Normal s
  | a :: l' => s' <-! f s a; reduceM f l' s'
  end.

(* ===================================================================== *)
(** ** The built-ins the code calls *)
(* ===================================================================== *)

Module Js.

(** [s.split(sep)] for a one-character separator.  The result is never
    empty: the empty string splits into one empty piece. *)
Fixpoint split (sep : ascii) (s : string) : list string :=
  match s with
  | EmptyString => [EmptyString]
  | String c s' =>
      if Ascii.eqb c sep then EmptyString :: split sep s'
      else match split sep s' with
           | [] => [String c EmptyString]
           | w :: ws => String c w :: ws
           end
  end.

(** [arr.join(sep)]. *)
Fixpoint join (sep : ascii) (l : list string) : string :=
  match l with
  | [] => EmptyString
  | [w] => w
  | w :: l' => w +:+ String sep (join sep l')
  end.

(** White space of [String.prototype.trim] among the code units 0..255. *)
Definition isWhiteSpace (c : ascii) : bool :=
  let n := nat_of_ascii c in
  ((9 <=? n) && (n <=? 13) || (n =? 32) || (n =? 160))%nat.

Fixpoint trimStart (s : string) : string :=
  match s with
  | EmptyString => EmptyString
  | String c s' => if isWhiteSpace c then trimStart s' else s
  end.

Fixpoint trimEnd (s : string) : string :=
  match s with
  | EmptyString => EmptyString
  | String c s' =>
      match trimEnd s' with
      | EmptyString => if isWhiteSpace c then EmptyString else String c EmptyString
      | t => String c t
      end
  end.

Definition trim (s : string) : string := trimEnd (trimStart s).

(** [arr.indexOf(x)]: the first index holding [x], or -1. *)
Fixpoint indexOf (l : list string) (x : string) : Z :=
  match l with
  | [] => -1
  | y :: l' =>
      if String.eqb y x then 0
      else let i := indexOf l' x in if i =? -1 then -1 else i + 1
  end.

(** [arr.sort(compareFn)].  The language requires the sort to be stable
    and, for a consistent comparator, to deliver the elements in
    comparator order; that result is unique, and insertion from the
    right computes it.  [compareFn a b <= 0] keeps [a] before [b]. *)
Fixpoint insert {A} (compareFn : A -> A -> Z) (x : A) (l : list A) : list A :=
  match l with
  | [] => [x]
  | y :: l' => if compareFn x y <=? 0 then x :: l else y :: insert compareFn x l'
  end.

Definition sort {A} (compareFn : A -> A -> Z) (l : list A) : list A :=
  foldr (insert compareFn) [] l.

End Js.

(* ===================================================================== *)
(** ** Data model *)
(* ===================================================================== *)

(** A log entry of the upstream service. *)
Record Log : Type := mkLog {
  log_type : Z;          (* 1 = down, 2 = up, ... *)
  log_datetime : Z;      (* unix seconds of the start *)
  log_duration : Z       (* seconds *)
}.

(** A raw monitor as returned by getMonitors. *)
Record Monitor : Type := mkMonitor {
  monitor_id : Z;
  friendly_name : string;
  monitor_url : string;
  monitor_status : Z;
  custom_uptime_ranges : string;
  monitor_logs : list Log
}.

(** [{ times, duration }], used for a day and for the total. *)
Record Down : Type := mkDown {
  times : Z;
  duration : Z
}.

(** Build-time configuration, [import.meta.env]. *)
Record ImportMetaEnv : Type := mkEnv {
  DEV : bool;
  VITE_GLOBAL_API : option string;
  VITE_SITE_SORT : option string
}.

(** dayjs, as far as the code uses it.  The library is not part of the
    repository; the development holds for every implementation of these
    operations (every time zone, every calendar rule).  The text that
    [format("YYYYMMDD")] gives is made of digits, so used as a property
    name of an array it never meets a property arrays have of their own
    ([length], [push], ...). *)
Class DayjsLib (Dayjs : Type) : Type := {
  dayjs_unix : Z -> Dayjs;               (* dayjs.unix(seconds) *)
  format_YYYYMMDD : Dayjs -> string;     (* d.format("YYYYMMDD") *)
  unix : Dayjs -> Z;                     (* d.unix() *)
  add_day : Dayjs -> Dayjs;              (* d.add(1, "day") *)
  subtract_days : Dayjs -> nat -> Dayjs  (* d.subtract(n, "day") *)
}.

(** [arr.forEach((x, index) => ...)] over a callback that updates the
    variables it closes over, here threaded as [s]. *)
Fixpoint forEachFrom {A St} (f : St -> A -> nat -> St) (index : nat) (l : list A) (s : St) : St :=
  match l with
  | [] => s
  | a :: l' => forEachFrom f (S index) l' (f s a index)
  end.

Definition forEach {A St} (f : St -> A -> nat -> St) (l : list A) (s : St) : St :=
  forEachFrom f 0%nat l s.

(** [arr[index] = v] for [index <= arr.length]: replace, or extend by one.
    (A larger index would leave holes; the code never does that.) *)
Definition assign {A} (arr : list A) (index : nat) (v : A) : list A :=
  if (index <? length arr)%nat then <[index := v]> arr else arr ++ [v].

(* ===================================================================== *)
(** ** The aggregator: [dataProcessing] *)
(* ===================================================================== *)

Section Aggregator.

Context {Dayjs : Type} {dayjs : DayjsLib Dayjs}.

(** [formatNumber] of utils/timeTools, which is not among the sources: the
    aggregator is embedded over an arbitrary formatter.  Its argument may
    be [undefined] ([ranges[index]] past the end). *)
Context {Uptime : Type} (formatNumber : option string -> Uptime).

Record DailyBucket : Type := mkBucket {
  date : Dayjs;
  uptime : Uptime;
  down : Down
}.

Record Site : Type := mkSite {
  site_id : Z;
  site_name : string;
  site_url : string;
  average : Uptime;
  daily : list DailyBucket;
  total : Down;
  site_status : string
}.

(** The comparator handed to [data.sort]. *)
Definition compareFn (siteSortArr : list string) (v1 v2 : Monitor) : Z :=
  let i1 := Js.indexOf siteSortArr (Js.trim (friendly_name v1)) + 1 in
  let i2 := Js.indexOf siteSortArr (Js.trim (friendly_name v2)) + 1 in
  (if i2 =? -1 then 0 else i2) - (if i1 =? -1 then 0 else i1).

Definition siteSortArr_of (VITE_SITE_SORT : string) : list string :=
  rev (map Js.trim (Js.split "," VITE_SITE_SORT)).

(** The [try { ... } catch] block at the head of [dataProcessing].  With no
    VITE_SITE_SORT, [split] is called on [undefined]; with [data]
    undefined, [sort] is.  Either exception is logged and dropped, and
    [data] keeps its value. *)
Definition sortSites (env : ImportMetaEnv) (data : option (list Monitor)) : option (list Monitor) :=
  match VITE_SITE_SORT env with
  | None => data
  | Some siteSort =>
      let siteSortArr := siteSortArr_of siteSort in
      match data with
      | None => None
      | Some l => Some (Js.sort (compareFn siteSortArr) l)
      end
  end.

(** The callback of [dates.forEach]: it fills [map] and [daily]. *)
Definition fillDay (ranges : list string)
    (s : gmap string nat * list DailyBucket) (date : Dayjs) (index : nat)
  : gmap string nat * list DailyBucket :=
  let '(map, daily) := s in
  (<[format_YYYYMMDD date := index]> map,
   assign daily index
     {| date := date;
        uptime := formatNumber (ranges !! index);
        down := {| times := 0; duration := 0 |} |}).

Definition addDown (b : DailyBucket) (d : Z) : DailyBucket :=
  {| date := date b;
     uptime := uptime b;
     down := {| times := times (down b) + 1; duration := duration (down b) + d |} |}.

(** [calculateTotal], the reducer over the logs.  [total] and [daily] are
    the objects it mutates.  [daily[map[date]]] is [undefined] when the
    key is not in [map], and reading [.down] of it throws. *)
Definition calculateTotal (map : gmap string nat)
    (s : Down * list DailyBucket) (log : Log) : completion (Down * list DailyBucket) :=
  let '(total, daily) := s in
  if log_type log =? 1 then
    let date := format_YYYYMMDD (dayjs_unix (log_datetime log)) in
    let total := {| times := times total + 1;
                    duration := duration total + log_duration log |} in
    match map !! date with
    | None => Throw TypeError
    | Some index =>
        match daily !! index with
        | None => Throw TypeError
        | Some b => Normal (total, <[index := addDown b (log_duration log)]> daily)
        end
    end
  else Normal s.

(** [monitor.custom_uptime_ranges.split("-")]. *)
Definition splitRanges (monitor : Monitor) : list string :=
  Js.split "-" (custom_uptime_ranges monitor).

(** The variables [map] and [daily] once [dates.forEach] is done.  By
    then [ranges.pop()] has taken the last piece off [ranges]. *)
Definition initDays (monitor : Monitor) (dates : list Dayjs)
  : gmap string nat * list DailyBucket :=
  let ranges := removelast (splitRanges monitor) in
  forEach (fillDay ranges) dates (∅, []).

(** The callback of [data.map]: one monitor to one site record.  The
    average is [formatNumber(ranges.pop())]; [pop] on the pieces of a
    split always finds one. *)
Definition processMonitor (dates : list Dayjs) (monitor : Monitor) : completion Site :=
  let average := formatNumber (last (splitRanges monitor)) in
  let '(map, daily) := initDays monitor dates in
  r <-! reduceM (calculateTotal map) (monitor_logs monitor)
          ({| times := 0; duration := 0 |}, daily);
  let '(total, daily) := r in
  let status := "unknown" in
  let status := if monitor_status monitor =? 2 then "ok" else status in
  let status := if monitor_status monitor =? 9 then "down" else status in
  Normal {| site_id := monitor_id monitor;
            site_name := friendly_name monitor;
            site_url := monitor_url monitor;
            average := average;
            daily := daily;
            total := total;
            site_status := status |}.

(** [dataProcessing(data, dates)].  [data?.map] of [undefined] is
    [undefined]. *)
Definition dataProcessing (env : ImportMetaEnv)
    (data : option (list Monitor)) (dates : list Dayjs)
  : completion (option (list Site)) :=
  match sortSites env data with
  | None => Normal None
  | Some l => out <-! mapM (processMonitor dates) l; Normal (Some out)
  end.

End Aggregator.

(* ===================================================================== *)
(** ** The stores, the page and the network *)
(* ===================================================================== *)

(** A cache entry: [{ data, timestamp }]. *)
Record CacheEntry : Type := mkEntry {
  data : list Monitor;
  timestamp : Z             (* milliseconds, [new Date().getTime()] *)
}.

Record Overview : Type := mkOverview {
  count : nat;
  okCount : nat;
  downCount : nat;
  unknownCount : nat
}.

(** What upstream sends back as [response.data]. *)
Record Payload : Type := mkPayload {
  stat : option string;
  error_message : option string;        (* data.error?.message *)
  monitors : option (list Monitor)
}.

Inductive ResponseData : Type :=
  | NullData                     (* null or undefined *)
  | ScalarData                   (* a string, number or boolean body *)
  | ObjectData (p : Payload).

(** The outcome of [axios.post]: a 2xx response, or a rejection (no
    response, timeout, or a status outside 2xx). *)
Inductive AxiosResult : Type :=
  | AxiosResponse (d : ResponseData)
  | AxiosFailure.

(** The fields of [postdata], in the order [Object.keys] lists them. *)
Definition FormFields : Type := list (string * string).

(** Modelled from the spec: the mobx stores [cache] and [status] are passed
    in by the caller and are not among the sources.  The cache is the
    "single global slot" that "holds the last fetched raw monitor list plus
    a fetch timestamp"; [changeSiteData] overwrites the slot with the entry
    it is given, [changeSiteState] and [changeSiteOverview] overwrite the
    two fields of the status store.  The slot keeps the entry it is given,
    not a copy of it: the [data] of the entry is the array the caller
    built the entry around.  The record also carries the part of the page
    that [changeSite] touches and the requests sent so far. *)
Record App : Type := mkApp {
  siteData : option CacheEntry;     (* cache.siteData, null when empty *)
  siteState : string;               (* status.siteState *)
  siteOverview : Overview;          (* status.siteOverview *)
  favicon : option string;          (* href of link[rel="shortcut icon"],
                                       [None] when the page has no such link *)
  posted : list (string * FormFields)   (* axios.post calls, oldest first *)
}.

Definition changeSiteData (e : CacheEntry) (app : App) : App :=
  {| siteData := Some e; siteState := siteState app;
     siteOverview := siteOverview app; favicon := favicon app;
     posted := posted app |}.

Definition changeSiteState (s : string) (app : App) : App :=
  {| siteData := siteData app; siteState := s;
     siteOverview := siteOverview app; favicon := favicon app;
     posted := posted app |}.

Definition changeSiteOverview (o : Overview) (app : App) : App :=
  {| siteData := siteData app; siteState := siteState app;
     siteOverview := o; favicon := favicon app;
     posted := posted app |}.

Definition setFaviconHref (href : string) (app : App) : App :=
  {| siteData := siteData app; siteState := siteState app;
     siteOverview := siteOverview app; favicon := Some href;
     posted := posted app |}.

Definition recordPost (url : string) (fields : FormFields) (app : App) : App :=
  {| siteData := siteData app; siteState := siteState app;
     siteOverview := siteOverview app; favicon := favicon app;
     posted := posted app ++ [(url, fields)] |}.

(** [data.sort] sorts the array it is called on, in place, and whoever
    holds that array sees the new order.  The array [getSiteData] hands
    to [dataProcessing] is the one inside the cache entry: after a fetch
    the entry has just been built around [response.monitors], and on a
    cache hit [data] is read out of the entry.  So the sort at the head
    of [dataProcessing] shows in the cache; [sortCached] is that effect
    on the store.  The entry stays the same object, with its timestamp. *)
Definition sortCached (env : ImportMetaEnv) (app : App) : App :=
  match siteData app with
  | Some entry =>
      match sortSites env (Some (data entry)) with
      | Some sorted =>
          changeSiteData {| data := sorted; timestamp := timestamp entry |} app
      | None => app
      end
  | None => app
  end.

(** How an async call ends.  [Pending] is a promise nobody settles. *)
Inductive promise (A : Type) : Type :=
  | Fulfilled (a : A)
  | Rejected (e : JsError)
  | Pending.
Arguments Fulfilled {A} a.
Arguments Rejected {A} e.
Arguments Pending {A}.

(** [a || b] on strings that may be undefined: the empty string is falsy. *)
Definition orElse (a : option string) (b : string) : string :=
  match a with
  | Some s => if String.eqb s "" then b else s
  | None => b
  end.

(* ===================================================================== *)
(** ** The presenter and the fetcher *)
(* ===================================================================== *)

Section Dashboard.

Context {Dayjs : Type} {dayjs : DayjsLib Dayjs}.
Context {Uptime : Type} (formatNumber : option string -> Uptime).

Abbreviation Site := (@Site Dayjs Uptime).

Definition statusIs (s : string) (item : Site) : bool :=
  String.eqb (site_status item) s.

(** [changeSite(data, status)].  The body of the [try] throws when [data]
    is undefined ([data.every]) and when the page has no favicon link
    ([faviconLink.href] on null); the [catch] then sets the state
    "error" and nothing else. *)
Definition changeSite (data : option (list Site)) (app : App) : App :=
  match data with
  | None => changeSiteState "error" app
  | Some data =>
      let isAllStatusOk := forallb (statusIs "ok") data in
      let isAnyStatusOk := existsb (statusIs "ok") data in
      let okCount := length (filter (fun item => statusIs "ok" item = true) data) in
      let downCount := length (filter (fun item => statusIs "down" item = true) data) in
      let unknownCount := length (filter (fun item => statusIs "unknown" item = true) data) in
      match favicon app with
      | None => changeSiteState "error" app
      | Some _ =>
          let app := setFaviconHref
                       (if isAllStatusOk then "./images/favicon.ico"
                        else "./images/favicon-down.ico") app in
          let app :=
            if isAllStatusOk then changeSiteState "normal" app
            else if isAnyStatusOk then changeSiteState "error" app
            else changeSiteState "allError" app in
          changeSiteOverview
            {| count := length data; okCount := okCount;
               downCount := downCount; unknownCount := unknownCount |} app
      end
  end.

(** What one call reads from outside: the clock and the network. *)
Record World : Type := mkWorld {
  today : Dayjs;            (* dayjs(new Date().setHours(0, 0, 0, 0)) *)
  timeAtCheck : Z;          (* new Date().getTime() at the cache check *)
  timeAtStore : Z;          (* new Date().getTime() when storing *)
  axios_post : string -> FormFields -> AxiosResult
}.

Record PostData : Type := mkPostData {
  api_key : string;
  format : string;
  logs : Z;
  log_types : string;
  logs_start_date : Z;
  logs_end_date : Z;
  pd_custom_uptime_ranges : string
}.

(** [Object.keys(postdata).forEach(key => params.append(key, postdata[key]))]. *)
Definition toFields (p : PostData) : FormFields :=
  [ ("api_key", api_key p);
    ("format", format p);
    ("logs", pretty (logs p));
    ("log_types", log_types p);
    ("logs_start_date", pretty (logs_start_date p));
    ("logs_end_date", pretty (logs_end_date p));
    ("custom_uptime_ranges", pd_custom_uptime_ranges p) ].

(** The URL [getMonitorsData] posts to: the dev-server proxy in
    development, else VITE_GLOBAL_API if set, else the service itself. *)
Definition apiUrlOf (env : ImportMetaEnv) : string :=
  if DEV env then "/uptimerobot/v2/getMonitors"
  else orElse (VITE_GLOBAL_API env) "https://api.uptimerobot.com/v2/getMonitors".

(** [getMonitorsData(postdata, status)]. *)
Definition getMonitorsData (env : ImportMetaEnv) (w : World)
    (postdata : PostData) (app : App) : completion ResponseData * App :=
  let apiUrl := apiUrlOf env in
  let params := toFields postdata in
  let app := recordPost apiUrl params app in
  let attempt : completion ResponseData :=
    match axios_post w apiUrl params with
    | AxiosFailure => Throw AxiosError
    | AxiosResponse d =>
        match d with
        | ObjectData p =>
            if bool_decide (stat p = Some "fail")
            then Throw (ApiError ("API Error: " +:+ orElse (error_message p) "Unknown error"))
            else Normal d
        | _ => Normal d
        end
    end in
  match attempt with
  | Normal d => (Normal d, app)
  | Throw e => (Throw e, changeSiteState "wrong" app)
  end.

(** [response.monitors]: throws on null, undefined on a scalar. *)
Definition monitorsOf (response : ResponseData) : completion (option (list Monitor)) :=
  match response with
  | NullData => Throw TypeError
  | ScalarData => Normal None
  | ObjectData p => Normal (monitors p)
  end.

(** The dates [today, today - 1 day, ...], newest first. *)
Definition datesOf (w : World) (days : nat) : list Dayjs :=
  map (subtract_days (today w)) (seq 0 days).

Definition rangeOf (date : Dayjs) : string :=
  pretty (unix date) +:+ "_" +:+ pretty (unix (add_day date)).

(** The part of [getSiteData] after the cache gate: fetch, store, process.
    The entry is stored before the processing, and the processing sorts
    the array the entry holds. *)
Definition fetchAndStore (env : ImportMetaEnv) (w : World) (postdata : PostData)
    (dates : list Dayjs) (app : App) : promise (option (list Site)) * App :=
  let '(r, app) := getMonitorsData env w postdata app in
  match r with
  | Throw e => (Rejected e, changeSiteState "wrong" app)
  | Normal response =>
      match monitorsOf response with
      | Throw e => (Rejected e, changeSiteState "wrong" app)
      | Normal ms =>
          let app :=
            match ms with
            | Some l => changeSiteData {| data := l; timestamp := timeAtStore w |} app
            | None => app
            end in
          let app :=
            match ms with
            | Some _ => sortCached env app
            | None => app
            end in
          match dataProcessing formatNumber env ms dates with
          | Throw e => (Rejected e, changeSiteState "wrong" app)
          | Normal processedData => (Fulfilled processedData, changeSite processedData app)
          end
      end
  end.

(** The cache-hit branch, with [entry] the entry in the slot: the work
    is done in a timer callback, outside the [try]; if it throws, the
    promise handed out is never resolved.  The array that is processed,
    and sorted on the way, is the one in the slot.  (The delay of the
    timer, 500 to 1200 ms, changes no state.) *)
Definition serveFromCache (env : ImportMetaEnv) (entry : CacheEntry)
    (dates : list Dayjs) (app : App) : promise (option (list Site)) * App :=
  let app := sortCached env app in
  match dataProcessing formatNumber env (Some (data entry)) dates with
  | Throw _ => (Pending, app)
  | Normal processedData => (Fulfilled processedData, changeSite processedData app)
  end.

Definition cacheDuration : Z := 60.

(** [getSiteData(apikey, days, cache, status)]. *)
Definition getSiteData (env : ImportMetaEnv) (w : World)
    (apikey : string) (days : nat) (app : App)
  : promise (option (list Site)) * App :=
  let app := changeSiteState "loading" app in
  let dates := datesOf w days in
  let ranges := map rangeOf dates in
  match last dates, head dates with
  | Some oldest, Some newest =>
      let start := unix oldest in
      let end_ := unix (add_day newest) in
      let ranges := ranges ++ [pretty start +:+ "_" +:+ pretty end_] in
      let postdata :=
        {| api_key := apikey; format := "json"; logs := 1; log_types := "1-2";
           logs_start_date := start; logs_end_date := end_;
           pd_custom_uptime_ranges := Js.join "-" ranges |} in
      match siteData app with
      | Some entry =>
          if timeAtCheck w - timestamp entry <? cacheDuration * 1000
          then serveFromCache env entry dates app
          else fetchAndStore env w postdata dates app
      | None => fetchAndStore env w postdata dates app
      end
  | _, _ =>
      (* [dates[dates.length - 1]] is undefined: [.unix()] throws *)
      (Rejected TypeError, changeSiteState "wrong" app)
  end.

End Dashboard.

(* ===================================================================== *)
(** ** The proxy endpoint *)
(* ===================================================================== *)

Module URLSearchParams.

(** The list of name-value pairs that a URLSearchParams object holds. *)
Definition t : Type := list (string * string).

Definition hasName (name : string) (p : string * string) : bool :=
  String.eqb (fst p) name.

Definition dropName (name : string) (l : t) : t :=
  List.filter (fun p => negb (hasName name p)) l.

(** [params.set(name, value)]: the first pair of that name takes the
    value and the others of that name go; with no such pair, one is
    appended. *)
Fixpoint set (name value : string) (l : t) : t :=
  match l with
  | [] => [(name, value)]
  | p :: l' =>
      if hasName name p then (name, value) :: dropName name l'
      else p :: set name value l'
  end.

(** [params.getAll(name)]. *)
Definition getAll (name : string) (l : t) : list string :=
  map snd (List.filter (hasName name) l).

End URLSearchParams.

Module Proxy.

Record Request : Type := mkRequest {
  method : string;
  body : option string        (* [None]: [req.text()] rejects *)
}.

Record UpstreamReply : Type := mkReply {
  reply_status : Z;
  reply_text : string;
  reply_content_type : option string      (* r.headers.get("content-type") *)
}.

Record Response : Type := mkResponse {
  status : Z;
  text : string;
  headers : list (string * string)
}.

Section Handler.

(** [new URLSearchParams(body)] and [params.toString()]: the platform's
    form decoder and encoder, whatever they are. *)
Variable parse : string -> URLSearchParams.t.
Variable serialize : URLSearchParams.t -> string.

(** [process.env.UPTIMEROBOT_API_KEY]. *)
Variable UPTIMEROBOT_API_KEY : option string.

(** [fetch(url, { method: "POST", headers, body })]; it may reject. *)
Variable fetch : string -> string -> completion UpstreamReply.

Definition bodyOf (req : Request) : string :=
  match body req with
  | Some s => s
  | None => ""
  end.

(** The parameters after [params.set("api_key", apiKey)]. *)
Definition forwardedParams (apiKey : string) (req : Request) : URLSearchParams.t :=
  URLSearchParams.set "api_key" apiKey (parse (bodyOf req)).

(** Whether the handler gets as far as [fetch], and with which body. *)
Definition forwarded (req : Request) : option string :=
  if negb (String.eqb (method req) "POST") then None
  else match UPTIMEROBOT_API_KEY with
       | None => None
       | Some apiKey =>
           if String.eqb apiKey "" then None
           else Some (serialize (forwardedParams apiKey req))
       end.

(** The exported handler. *)
Definition handler (req : Request) : completion Response :=
  if negb (String.eqb (method req) "POST")
  then Normal {| status := 405; text := "Method Not Allowed"; headers := [] |}
  else match UPTIMEROBOT_API_KEY with
       | None => Normal {| status := 500; text := "Missing UPTIMEROBOT_API_KEY"; headers := [] |}
       | Some apiKey =>
           if String.eqb apiKey ""
           then Normal {| status := 500; text := "Missing UPTIMEROBOT_API_KEY"; headers := [] |}
           else
             let params := forwardedParams apiKey req in
             r <-! fetch "https://api.uptimerobot.com/v2/getMonitors" (serialize params);
             Normal {| status := reply_status r;
                       text := reply_text r;
                       headers :=
                         [ ("Content-Type", orElse (reply_content_type r) "application/json");
                           ("Cache-Control", "no-store") ] |}
       end.

(** Two request bodies differ only in their api_key field: they decode to
    the same names in the same order, with the same values except at the
    pairs named api_key. *)
Definition sameButKey (b1 b2 : string) : Prop :=
  Forall2 (fun p q => fst p = fst q /\ (fst p <> "api_key" -> snd p = snd q))
          (parse b1) (parse b2).

End Handler.

(** A decoder and an encoder for bodies without escapes, used to run the
    handler on examples: pairs separated by [&], name and value by the
    first [=]. *)
Fixpoint splitAtEq (s : string) : string * string :=
  match s with
  | EmptyString => (EmptyString, EmptyString)
  | String c s' =>
      if Ascii.eqb c "=" then (EmptyString, s')
      else let '(n, v) := splitAtEq s' in (String c n, v)
  end.

Definition plainParse (b : string) : URLSearchParams.t :=
  map splitAtEq (List.filter (fun s => negb (String.eqb s "")) (Js.split "&" b)).

Definition plainSerialize (l : URLSearchParams.t) : string :=
  Js.join "&" (map (fun p => fst p +:+ "=" +:+ snd p) l).

End Proxy.

(* ===================================================================== *)
(** ** A dayjs for examples: UTC *)
(* ===================================================================== *)

Module DayjsUTC.

(** Days since 1970-01-01 to (year, month, day) in the Gregorian
    calendar. *)
Definition civil_from_days (z : Z) : Z * Z * Z :=
  let z := z + 719468 in
  let era := z / 146097 in
  let doe := z - era * 146097 in
  let yoe := (doe - doe / 1460 + doe / 36524 - doe / 146096) / 365 in
  let y := yoe + era * 400 in
  let doy := doe - (365 * yoe + yoe / 4 - yoe / 100) in
  let mp := (5 * doy + 2) / 153 in
  let d := doy - (153 * mp + 2) / 5 + 1 in
  let m := if mp <? 10 then mp + 3 else mp - 9 in
  (if m <=? 2 then y + 1 else y, m, d).

Definition digit (n : Z) : ascii := ascii_of_nat (48 + Z.to_nat (n mod 10)).

Definition pad2 (n : Z) : string :=
  String (digit (n / 10)) (String (digit n) EmptyString).

Definition pad4 (n : Z) : string :=
  String (digit (n / 1000)) (String (digit (n / 100)) (pad2 n)).

(** An instant is its unix time in seconds. *)
Definition formatDay (t : Z) : string :=
  let '(y, m, d) := civil_from_days (t / 86400) in
  pad4 y +:+ pad2 m +:+ pad2 d.

#[export] Instance lib : DayjsLib Z := {|
  dayjs_unix := fun t => t;
  format_YYYYMMDD := formatDay;
  unix := fun t => t;
  add_day := fun t => t + 86400;
  subtract_days := fun t n => t - 86400 * Z.of_nat n
|}.

End DayjsUTC.

(** A formatter for examples: the text itself, [undefined] as "NaN". *)
Definition showNumber (v : option string) : string :=
  match v with
  | Some s => s
  | None => "NaN"
  end.

(* ===================================================================== *)
(** ** Sample data *)
(* ===================================================================== *)

Module Sample.

(** Two requested dates, newest first: 2023-11-14 and 2023-11-13, at
    midnight UTC. *)
Definition D0 : Z := 1699920000.
Definition D1 : Z := 1699833600.

Definition env : ImportMetaEnv :=
  {| DEV := false; VITE_GLOBAL_API := None; VITE_SITE_SORT := Some "Blog, API" |}.

(** A down event on 2023-11-13 at 01:00, five minutes long, and the up
    event that follows. *)
Definition downOn13 : Log :=
  {| log_type := 1; log_datetime := 1699837200; log_duration := 300 |}.
Definition upOn13 : Log :=
  {| log_type := 2; log_datetime := 1699837500; log_duration := 82500 |}.

(** A down event on 2023-11-12, a day that is not requested. *)
Definition downOn12 : Log :=
  {| log_type := 1; log_datetime := 1699800000; log_duration := 120 |}.

Definition blog : Monitor :=
  {| monitor_id := 1; friendly_name := "Blog";
     monitor_url := "https://blog.example.org"; monitor_status := 2;
     custom_uptime_ranges := "95.5-100.0-97.0";
     monitor_logs := [downOn13; upOn13] |}.

(** The same monitor with the earlier down event in its logs. *)
Definition stray : Monitor :=
  {| monitor_id := 2; friendly_name := "API";
     monitor_url := "https://api.example.org"; monitor_status := 9;
     custom_uptime_ranges := "95.5-100.0-97.0";
     monitor_logs := [downOn12] |}.

(** A monitor whose name is not in the configured list. *)
Definition wiki : Monitor :=
  {| monitor_id := 3; friendly_name := "Wiki";
     monitor_url := "https://wiki.example.org"; monitor_status := 0;
     custom_uptime_ranges := "100.0-100.0-100.0";
     monitor_logs := [] |}.

Definition noDown : Down := {| times := 0; duration := 0 |}.

(** What [dataProcessing] makes of [blog] for the two dates. *)
Definition blogSite : @Site Z string :=
  {| site_id := 1; site_name := "Blog"; site_url := "https://blog.example.org";
     average := "97.0";
     daily := [ {| date := D0; uptime := "95.5"; down := noDown |};
                {| date := D1; uptime := "100.0";
                   down := {| times := 1; duration := 300 |} |} ];
     total := {| times := 1; duration := 300 |};
     site_status := "ok" |}.

Definition wikiSite : @Site Z string :=
  {| site_id := 3; site_name := "Wiki"; site_url := "https://wiki.example.org";
     average := "100.0";
     daily := [ {| date := D0; uptime := "100.0"; down := noDown |};
                {| date := D1; uptime := "100.0"; down := noDown |} ];
     total := noDown;
     site_status := "unknown" |}.

Definition overview0 : Overview :=
  {| count := 0; okCount := 0; downCount := 0; unknownCount := 0 |}.

(** The application before anything was fetched, on a page with the
    favicon link. *)
Definition appEmpty : App :=
  {| siteData := None; siteState := "loading"; siteOverview := overview0;
     favicon := Some "./images/favicon.ico"; posted := [] |}.

(** The same on a page without the favicon link. *)
Definition appNoFavicon : App :=
  {| siteData := None; siteState := "loading"; siteOverview := overview0;
     favicon := None; posted := [] |}.

(** The application with a cache entry written at [timestamp]. *)
Definition appCached (l : list Monitor) (timestamp : Z) : App :=
  {| siteData := Some {| data := l; timestamp := timestamp |};
     siteState := "normal"; siteOverview := overview0;
     favicon := Some "./images/favicon.ico"; posted := [] |}.

Definition okPayload : Payload :=
  {| stat := Some "ok"; error_message := None; monitors := Some [wiki; blog] |}.

(** The clock reads 2023-11-14 08:20:30 at the cache check; upstream
    answers every request with [reply]. *)
Definition world (reply : AxiosResult) : @World Z :=
  {| today := D0;
     timeAtCheck := 1699950030000;
     timeAtStore := 1699950031000;
     axios_post := fun _ _ => reply |}.

(** Ten seconds past midnight of 2023-11-14: the day before, the 13th and
    the 12th were the two requested dates. *)
Definition worldPastMidnight : @World Z :=
  {| today := D0;
     timeAtCheck := 1699920010000;
     timeAtStore := 1699920011000;
     axios_post := fun _ _ => AxiosFailure |}.

(** The request that a call for two days sends from [D0]. *)
Definition requestUrl : string := "https://api.uptimerobot.com/v2/getMonitors".
Definition requestFields : FormFields :=
  [ ("api_key", "u123-key"); ("format", "json"); ("logs", "1");
    ("log_types", "1-2");
    ("logs_start_date", "1699833600"); ("logs_end_date", "1700006400");
    ("custom_uptime_ranges",
     "1699920000_1700006400-1699833600_1699920000-1699833600_1700006400") ].

(** Two POST requests to the proxy whose bodies differ in the key only. *)
Definition request1 : Proxy.Request :=
  {| Proxy.method := "POST";
     Proxy.body := Some "api_key=from-client&format=json&logs=1" |}.
Definition request2 : Proxy.Request :=
  {| Proxy.method := "POST";
     Proxy.body := Some "api_key=another&format=json&logs=1" |}.

Definition upstream (url body : string) : completion Proxy.UpstreamReply :=
  Normal {| Proxy.reply_status := 200; Proxy.reply_text := "{}";
            Proxy.reply_content_type := Some "application/json" |}.

End Sample.

(* ===================================================================== *)
(** ** More sample data *)
(* ===================================================================== *)

Module Cases.

Import Sample.

(** A monitor whose uptime string has two values where three are due. *)
Definition short : Monitor :=
  {| monitor_id := 4; friendly_name := "Shop";
     monitor_url := "https://shop.example.org"; monitor_status := 9;
     custom_uptime_ranges := "99.9-98.0";
     monitor_logs := [] |}.

Definition shortSite : @Site Z string :=
  {| site_id := 4; site_name := "Shop"; site_url := "https://shop.example.org";
     average := "98.0";
     daily := [ {| date := D0; uptime := "99.9"; down := noDown |};
                {| date := D1; uptime := "NaN"; down := noDown |} ];
     total := noDown;
     site_status := "down" |}.


(** A response without a monitor list. *)
Definition barePayload : Payload :=
  {| stat := Some "ok"; error_message := None; monitors := None |}.


(** The comparisons of the component on the texts of [showNumber]. *)
Definition textAtLeast100 (v : string) : bool := String.eqb v "100.0".
Definition textAtMost0 (v : string) : bool := String.eqb v "0.0".

(** A request with another method, and a POST whose body cannot be
    read. *)
Definition getRequest : Proxy.Request :=
  {| Proxy.method := "GET"; Proxy.body := Some "" |}.
Definition unreadable : Proxy.Request :=
  {| Proxy.method := "POST"; Proxy.body := None |}.

End Cases.

(* ===================================================================== *)
(** ** Predicates used in the statements *)
(* ===================================================================== *)

(** [s.includes(c)]. *)
Fixpoint includes (s : string) (c : ascii) : bool :=
  match s with
  | EmptyString => false
  | String c' s' => Ascii.eqb c' c || includes s' c
  end.

(** A percentage value as upstream prints it: no dash inside. *)
Definition dashFree (v : string) : Prop := includes v "-" = false.

Section Predicates.

Context {Dayjs : Type} {dayjs : DayjsLib Dayjs}.
Context {Uptime : Type}.

Abbreviation DailyBucket := (@DailyBucket Dayjs Uptime).
Abbreviation Site := (@Site Dayjs Uptime).

(** The calendar-day key of a log's start. *)
Definition dayKey (log : Log) : string :=
  format_YYYYMMDD (dayjs_unix (log_datetime log)).

(** A down-type log falls on one of the requested dates. *)
Definition onRequestedDate (dates : list Dayjs) (log : Log) : Prop :=
  log_type log = 1 -> dayKey log ∈ map format_YYYYMMDD dates.

Definition logsOnRequestedDates (dates : list Dayjs) (monitor : Monitor) : Prop :=
  Forall (onRequestedDate dates) (monitor_logs monitor).

(** [daily'] is [daily] with the down counter of exactly one bucket
    raised by one and its duration by the log's, in a bucket whose date
    has the log's day key. *)
Definition bumpsOneBucket (daily daily' : list DailyBucket) (log : Log) : Prop :=
  exists index b,
    daily !! index = Some b /\
    format_YYYYMMDD (date b) = dayKey log /\
    daily' !! index =
      Some {| date := date b; uptime := uptime b;
              down := {| times := times (down b) + 1;
                         duration := duration (down b) + log_duration log |} |} /\
    length daily' = length daily /\
    forall i, i <> index -> daily' !! i = daily !! i.

Definition sumTimes (daily : list DailyBucket) : Z :=
  foldr (fun b acc => times (down b) + acc) 0 daily.

Definition sumDuration (daily : list DailyBucket) : Z :=
  foldr (fun b acc => duration (down b) + acc) 0 daily.

(** Every index in [map] names a bucket, and that bucket's date has the
    key's day. *)
Definition wellIndexed (map : gmap string nat) (daily : list DailyBucket) : Prop :=
  forall k index, map !! k = Some index ->
    exists b, daily !! index = Some b /\ format_YYYYMMDD (date b) = k.

(** The invariant of the fold over the logs: dates and uptimes stay, and
    [total] grows by what the buckets grow. *)
Record keeps (daily : list DailyBucket) (total : Down)
    (daily' : list DailyBucket) (total' : Down) : Prop := mkKeeps {
  keeps_date : List.map date daily' = List.map date daily;
  keeps_uptime : List.map uptime daily' = List.map uptime daily;
  keeps_times : times total' - times total = sumTimes daily' - sumTimes daily;
  keeps_duration :
    duration total' - duration total = sumDuration daily' - sumDuration daily
}.

(** The order in which [dataProcessing] lists the monitors of [data]. *)
Definition displayOrder (env : ImportMetaEnv) (data : list Monitor) : list Monitor :=
  match VITE_SITE_SORT env with
  | None => data
  | Some siteSort => Js.sort (compareFn (siteSortArr_of siteSort)) data
  end.

(** The entry once [dataProcessing] has sorted the array it holds. *)
Definition sortedEntry (env : ImportMetaEnv) (entry : CacheEntry) : CacheEntry :=
  {| data := displayOrder env (data entry); timestamp := timestamp entry |}.

(** The cached array, if any, is in the order the sort of
    [dataProcessing] leaves it in. *)
Definition cacheInDisplayOrder (env : ImportMetaEnv) (app : App) : Prop :=
  forall entry, siteData app = Some entry -> displayOrder env (data entry) = data entry.

(** The site record [r] carries the average and the days of [monitor]:
    whenever the monitor's string joins N+1 dash-free values and N dates
    are requested, the average is the formatted last value and there are
    exactly N daily entries, entry i with date i and the formatted
    value i. *)
Definition averageAndDaily (formatNumber : option string -> Uptime)
    (dates : list Dayjs) (monitor : Monitor) (r : Site) : Prop :=
  forall vals : list string,
    custom_uptime_ranges monitor = Js.join "-" vals ->
    Forall dashFree vals ->
    length vals = S (length dates) ->
    average r = formatNumber (last vals) /\
    length (daily r) = length dates /\
    forall i d v,
      dates !! i = Some d -> vals !! i = Some v ->
      exists b, daily r !! i = Some b /\ date b = d /\
                uptime b = formatNumber (Some v).

(** Status code 2 gives "ok", 9 gives "down", any other "unknown". *)
Definition statusFollowsCode (monitor : Monitor) (r : Site) : Prop :=
  (monitor_status monitor = 2 -> site_status r = "ok") /\
  (monitor_status monitor = 9 -> site_status r = "down") /\
  (monitor_status monitor <> 2 -> monitor_status monitor <> 9 ->
   site_status r = "unknown").

(** The total is the sum over the days, for count and duration. *)
Definition totalIsSumOfDaily (r : Site) : Prop :=
  times (total r) = sumTimes (daily r) /\
  duration (total r) = sumDuration (daily r).

(** The status text for a status code. *)
Definition statusText (code : Z) : string :=
  if code =? 2 then "ok" else if code =? 9 then "down" else "unknown".

(** The priority the comparator gives a monitor. *)
Definition priorityOf (siteSortArr : list string) (v : Monitor) : Z :=
  let i := Js.indexOf siteSortArr (Js.trim (friendly_name v)) + 1 in
  if i =? -1 then 0 else i.

(** The monitor's trimmed name is in the configured list. *)
Definition matched (siteSort : string) (v : Monitor) : Prop :=
  Js.trim (friendly_name v) ∈ siteSortArr_of siteSort.

(** The last name of the configured list: the one of lowest priority. *)
Definition lowestPriorityName (siteSort : string) : option string :=
  last (List.map Js.trim (Js.split "," siteSort)).

(** The promise of the cache-hit branch, from what the processing did. *)
Definition settleTimer {A} (c : completion A) : promise A :=
  match c with
  | Normal a => Fulfilled a
  | Throw _ => Pending
  end.

(** [getMonitorsData] throws [e] on the reply [r]: no usable response, or
    a body with [stat] "fail". *)
Definition fetchThrows (r : AxiosResult) (e : JsError) : Prop :=
  (r = AxiosFailure /\ e = AxiosError) \/
  (exists p, r = AxiosResponse (ObjectData p) /\ stat p = Some "fail" /\
             e = ApiError ("API Error: " +:+ orElse (error_message p) "Unknown error")).

(** The request succeeded and its body carries the monitor list [l]. *)
Definition fetchDelivers (r : AxiosResult) (l : list Monitor) : Prop :=
  exists p, r = AxiosResponse (ObjectData p) /\ stat p <> Some "fail" /\ monitors p = Some l.

End Predicates.

(** Non-increasing keys from left to right. *)
Definition descending {A} (key : A -> Z) : list A -> Prop :=
  StronglySorted (fun x y => key y <= key x).

(* ===================================================================== *)
(** ** The component that shows the sites *)
(* ===================================================================== *)

Module Component.

Section SiteStatus.

Context {Dayjs Uptime : Type}.

(** [uptime >= 100] and [uptime <= 0] on what [formatNumber] returned: the
    comparisons of the language on a value whose type is the formatter's
    business. *)
Variable atLeast100 : Uptime -> bool.
Variable atMost0 : Uptime -> bool.

(** The decisions of [SiteStatus] for one site; the markup around them
    and the texts of the tooltips are left out. *)
Record Tile : Type := mkTile {
  tile_key : Z;                  (* key={site.id} *)
  tile_class : string;           (* "site error" or "site normal" *)
  tile_name : string;
  status_class : string;         (* "normal", "unknown" or "error" *)
  tip : string;                  (* "Operational", "Unknown" or "Down" *)
  lines : list string;           (* the class of each day of the timeline *)
  day : Dayjs                    (* the date under the summary *)
}.

Inductive View : Type :=
  | Sites (tiles : list Tile)
  | Loading
  | ErrorResult.

(** The class of one day of the timeline. *)
Definition lineStatus (b : @DailyBucket Dayjs Uptime) : string :=
  if atLeast100 (uptime b) then "normal"
  else if atMost0 (uptime b) && (times (down b) =? 0) then "none"
  else "error".

Definition tileClass (site : @Site Dayjs Uptime) : string :=
  if negb (String.eqb (site_status site) "ok") then "error" else "normal".

Definition statusClass (site : @Site Dayjs Uptime) : string :=
  if String.eqb (site_status site) "ok" then "normal"
  else if String.eqb (site_status site) "unknown" then "unknown"
  else "error".

Definition statusTip (site : @Site Dayjs Uptime) : string :=
  if String.eqb (site_status site) "ok" then "Operational"
  else if String.eqb (site_status site) "unknown" then "Unknown"
  else "Down".

(** One site of [siteData.map].  [site.daily[site.daily.length - 1]] is
    [undefined] for an empty [daily], and [.date] of it throws. *)
Definition renderSite (site : @Site Dayjs Uptime) : completion Tile :=
  match last (daily site) with
  | None => Throw TypeError
  | Some b =>
      Normal {| tile_key := site_id site;
                tile_class := tileClass site;
                tile_name := site_name site;
                status_class := statusClass site;
                tip := statusTip site;
                lines := List.map lineStatus (daily site);
                day := date b |}
  end.

(** What [SiteStatus] returns for a state and the [siteData] it is given
    ([None]: null or undefined). *)
Definition render (siteState : string)
    (siteData : option (list (@Site Dayjs Uptime))) : completion View :=
  if negb (String.eqb siteState "wrong") then
    match siteData with
    | Some sites =>
        if negb (String.eqb siteState "loading")
        then tiles <-! mapM renderSite sites; Normal (Sites tiles)
        else Normal Loading
    | None => Normal Loading
    end
  else Normal ErrorResult.

End SiteStatus.

End Component.

(* ===================================================================== *)
(** ** Further notions for the statements *)
(* ===================================================================== *)

Definition isDown (log : Log) : bool := log_type log =? 1.

(** The down-type logs of a monitor, in the order of the logs. *)
Definition downLogs (monitor : Monitor) : list Log :=
  List.filter isDown (monitor_logs monitor).

Definition totalDuration (logs : list Log) : Z :=
  foldr (fun log acc => log_duration log + acc) 0 logs.

Section FurtherNotions.

Context {Dayjs : Type} {dayjs : DayjsLib Dayjs}.

(** The down-type logs of a monitor that start on the day of [d]. *)
Definition downLogsOn (d : Dayjs) (monitor : Monitor) : list Log :=
  List.filter (fun log => String.eqb (dayKey log) (format_YYYYMMDD d))
              (downLogs monitor).

(** The requested dates lie in the unix era: the midnight of each and of
    the day after it have non-negative unix times. *)
Definition inUnixEra (dates : list Dayjs) : Prop :=
  Forall (fun date => 0 <= unix date /\ 0 <= unix (add_day date)) dates.

(** The range that spans all the requested dates. *)
Definition spanOf (w : @World Dayjs) (days : nat) : string :=
  pretty (unix (subtract_days (today w) (days - 1))) +:+ "_" +:+
  pretty (unix (add_day (subtract_days (today w) 0%nat))).

(** The [postdata] of a call for [days] days. *)
Definition requestOf (w : @World Dayjs) (apikey : string) (days : nat) : PostData :=
  {| api_key := apikey; format := "json"; logs := 1; log_types := "1-2";
     logs_start_date := unix (subtract_days (today w) (days - 1));
     logs_end_date := unix (add_day (subtract_days (today w) 0%nat));
     pd_custom_uptime_ranges :=
       Js.join "-" (List.map rangeOf (datesOf w days) ++ [spanOf w days]) |}.

(** The body of a 2xx response carries no monitor list: it is a scalar,
    or an object without [monitors] whose [stat] is not "fail". *)
Definition noMonitorList (r : AxiosResult) : Prop :=
  r = AxiosResponse ScalarData \/
  exists p, r = AxiosResponse (ObjectData p) /\ stat p <> Some "fail" /\ monitors p = None.

End FurtherNotions.

(** The value of a form field, if the field is there. *)
Definition fieldOf (name : string) (fields : FormFields) : option string :=
  head (URLSearchParams.getAll name fields).

(** The monitors with a given status code. *)
Definition withCode (code : Z) (l : list Monitor) : list Monitor :=
  List.filter (fun m => monitor_status m =? code) l.

(** The monitors of a given priority. *)
Definition withPriority (siteSortArr : list string) (k : Z) (l : list Monitor)
  : list Monitor :=
  List.filter (fun v => priorityOf siteSortArr v =? k) l.

(* ===================================================================== *)
(** ** Facts about the built-ins *)
(* ===================================================================== *)

Example formatDay_epoch : DayjsUTC.formatDay 0 = "19700101".
Proof. reflexivity. Qed.

Example formatDay_2023 : DayjsUTC.formatDay 1700000000 = "20231114".
Proof. reflexivity. Qed.

Example formatDay_leap : DayjsUTC.formatDay 1709164800 = "20240229".
Proof. reflexivity. Qed.

Example split_example : Js.split "-" "95.5-100.0-97.0" = ["95.5"; "100.0"; "97.0"].
Proof. reflexivity. Qed.

Example split_empty : Js.split "-" "" = [""].
Proof. reflexivity. Qed.

Example trim_example : Js.trim "  my site " = "my site".
Proof. reflexivity. Qed.

Example set_example :
  URLSearchParams.set "api_key" "K" [("a", "1"); ("api_key", "x"); ("b", "2"); ("api_key", "y")]
  = [("a", "1"); ("api_key", "K"); ("b", "2")].
Proof. reflexivity. Qed.

Lemma split_nonempty sep s : Js.split sep s <> [].
Proof.
  destruct s as [|c s]; simpl; [discriminate|].
  destruct (Ascii.eqb c sep); [discriminate|].
  destruct (Js.split sep s); discriminate.
Qed.

Lemma split_without_sep sep s :
  includes s sep = false -> Js.split sep s = [s].
Proof.
  induction s as [|c s IH]; simpl; [reflexivity|].
  intros H. apply orb_false_iff in H as [Hc Hs].
  rewrite Hc, (IH Hs). reflexivity.
Qed.

Lemma split_append sep w rest :
  includes w sep = false ->
  Js.split sep (w +:+ String sep rest) = w :: Js.split sep rest.
Proof.
  induction w as [|c w IH]; simpl.
  - intros _. rewrite Ascii.eqb_refl. reflexivity.
  - intros H. apply orb_false_iff in H as [Hc Hs].
    rewrite Hc. change (String.append w (String sep rest)) with (w +:+ String sep rest).
    rewrite (IH Hs). reflexivity.
Qed.

(** Splitting undoes joining, for pieces without the separator. *)
Lemma split_join sep (vals : list string) :
  vals <> [] ->
  Forall (fun v => includes v sep = false) vals ->
  Js.split sep (Js.join sep vals) = vals.
Proof.
  induction vals as [|v vals IH]; [congruence|].
  intros _ H. inversion H as [|? ? Hv Hvals]; subst.
  destruct vals as [|v' vals].
  - simpl. apply split_without_sep; assumption.
  - change (Js.join sep (v :: v' :: vals))
      with (v +:+ String sep (Js.join sep (v' :: vals))).
    rewrite split_append by assumption.
    rewrite IH; [reflexivity|discriminate|assumption].
Qed.

Lemma indexOf_ge l x : -1 <= Js.indexOf l x.
Proof.
  induction l as [|y l IH]; simpl; [lia|].
  destruct (String.eqb y x); [lia|].
  destruct (Z.eqb_spec (Js.indexOf l x) (-1)); lia.
Qed.

Lemma indexOf_absent l x : Js.indexOf l x = -1 <-> x ∉ l.
Proof.
  induction l as [|y l IH]; simpl.
  - split; [intros _; apply not_elem_of_nil|reflexivity].
  - rewrite not_elem_of_cons.
    destruct (String.eqb_spec y x) as [->|Hne].
    + split; [lia|intros [? _]; congruence].
    + pose proof (indexOf_ge l x).
      destruct (Z.eqb_spec (Js.indexOf l x) (-1)) as [E|E].
      * split; [intros _; split; [congruence|apply IH; exact E]|reflexivity].
      * split; [lia|intros [_ H1]; apply IH in H1; contradiction].
Qed.

Lemma insert_perm {A} (cmp : A -> A -> Z) x l :
  Permutation (Js.insert cmp x l) (x :: l).
Proof.
  induction l as [|y l IH]; simpl; [reflexivity|].
  destruct (cmp x y <=? 0); [reflexivity|].
  rewrite IH. apply perm_swap.
Qed.

Lemma sort_perm {A} (cmp : A -> A -> Z) l : Permutation (Js.sort cmp l) l.
Proof.
  induction l as [|x l IH]; simpl; [reflexivity|].
  unfold Js.sort in *. simpl. rewrite insert_perm. constructor. exact IH.
Qed.

Section SortByKey.

Context {A : Type} (key : A -> Z) (cmp : A -> A -> Z).
Hypothesis cmp_key : forall x y, cmp x y = key y - key x.

Lemma insert_descending x l : descending key l -> descending key (Js.insert cmp x l).
Proof.
  unfold descending. induction l as [|y l IH]; simpl; intros H.
  - repeat constructor.
  - inversion H as [|? ? Hl Hy]; subst.
    rewrite cmp_key. destruct (Z.leb_spec (key y - key x) 0) as [Hle|Hgt].
    + constructor; [exact H|]. constructor; [lia|].
      eapply Forall_impl; [exact Hy|]. simpl. intros; lia.
    + constructor; [apply IH; exact Hl|].
      rewrite (insert_perm cmp x l). constructor; [lia|exact Hy].
Qed.

Lemma sort_descending l : descending key (Js.sort cmp l).
Proof.
  induction l as [|x l IH]; [constructor|].
  apply insert_descending. exact IH.
Qed.

(** Already in order: the sort changes nothing. *)
Lemma sort_of_descending l : descending key l -> Js.sort cmp l = l.
Proof.
  unfold descending. induction l as [|x l IH]; [reflexivity|].
  intros H. inversion H as [|? ? Hl Hx]; subst.
  unfold Js.sort in *. simpl. rewrite (IH Hl).
  destruct l as [|y l]; [reflexivity|]. simpl.
  rewrite cmp_key. inversion Hx; subst.
  destruct (Z.leb_spec (key y - key x) 0); [reflexivity|lia].
Qed.

Lemma descending_lookup l i j x y :
  descending key l -> (i < j)%nat -> l !! i = Some x -> l !! j = Some y ->
  key y <= key x.
Proof.
  unfold descending. intros H. revert i j x y.
  induction H as [|a l Hl IH Ha]; intros i j x y Hij Hi Hj.
  - rewrite lookup_nil in Hi. discriminate.
  - destruct j as [|j]; [lia|]. simpl in Hj.
    destruct i as [|i]; simpl in Hi.
    + injection Hi as <-. rewrite Forall_forall in Ha.
      apply Ha. eapply list_elem_of_lookup_2. exact Hj.
    + eapply (IH i j); [lia|exact Hi|exact Hj].
Qed.

End SortByKey.

(* ===================================================================== *)
(** ** Facts about the aggregator *)
(* ===================================================================== *)

Section AggregatorFacts.

Context {Dayjs : Type} {dayjs : DayjsLib Dayjs}.
Context {Uptime : Type} (formatNumber : option string -> Uptime).

Implicit Types (dates : list Dayjs) (daily : list (@DailyBucket Dayjs Uptime)).
Implicit Types (map : gmap string nat) (log : Log) (total : Down).

(** *** The loop over the dates *)

Lemma forEachFrom_fillDay_daily ranges dates : forall index map daily,
  length daily = index ->
  snd (forEachFrom (fillDay formatNumber ranges) index dates (map, daily)) =
  daily ++ imap (fun k d => {| date := d;
                               uptime := formatNumber (ranges !! (index + k)%nat);
                               down := {| times := 0; duration := 0 |} |}) dates.
Proof.
  induction dates as [|d dates IH]; intros index map daily Hlen; simpl.
  - rewrite app_nil_r. reflexivity.
  - unfold assign. rewrite Hlen, Nat.ltb_irrefl.
    rewrite IH by (rewrite length_app; simpl; lia).
    rewrite <- app_assoc. simpl. rewrite Nat.add_0_r.
    do 2 f_equal. apply imap_ext. intros k x _. simpl.
    rewrite Nat.add_succ_r. reflexivity.
Qed.

Lemma forEachFrom_fillDay_map ranges dates : forall index map daily k,
  let M := fst (forEachFrom (fillDay formatNumber ranges) index dates (map, daily)) in
  (k ∉ List.map format_YYYYMMDD dates -> M !! k = map !! k) /\
  (k ∈ List.map format_YYYYMMDD dates ->
   exists j d, M !! k = Some (index + j)%nat /\ dates !! j = Some d /\
               format_YYYYMMDD d = k).
Proof.
  induction dates as [|d dates IH]; intros index map daily k; simpl.
  - split; [reflexivity|]. intros H. apply elem_of_nil in H. contradiction.
  - specialize (IH (S index) (<[format_YYYYMMDD d := index]> map)
                   (assign daily index
                      {| date := d; uptime := formatNumber (ranges !! index);
                         down := {| times := 0; duration := 0 |} |}) k).
    simpl in IH. destruct IH as [IHout IHin].
    destruct (decide (k ∈ List.map format_YYYYMMDD dates)) as [Hin|Hout].
    + split; [intros H; exfalso; apply H, elem_of_cons; right; exact Hin|].
      intros _. destruct (IHin Hin) as (j & d' & HM & Hd & Hk).
      exists (S j), d'. rewrite HM. split; [f_equal; lia|]. split; assumption.
    + rewrite (IHout Hout). split.
      * intros H. apply lookup_insert_ne. intros E.
        apply H, elem_of_cons. left. congruence.
      * intros H. apply elem_of_cons in H as [E|H]; [|contradiction].
        exists 0%nat, d. subst k. rewrite lookup_insert_eq, Nat.add_0_r. auto.
Qed.

(** *** One step of the reducer *)

Lemma calculateTotal_other map total daily log :
  log_type log <> 1 ->
  calculateTotal map (total, daily) log = Normal (total, daily).
Proof.
  intros H. unfold calculateTotal.
  destruct (Z.eqb_spec (log_type log) 1); [contradiction|reflexivity].
Qed.

Lemma calculateTotal_down map total daily log index b :
  log_type log = 1 ->
  map !! dayKey log = Some index ->
  daily !! index = Some b ->
  calculateTotal map (total, daily) log =
  Normal ({| times := times total + 1; duration := duration total + log_duration log |},
          <[index := addDown b (log_duration log)]> daily).
Proof.
  intros Ht Hm Hd. unfold calculateTotal, dayKey in *.
  rewrite Ht. simpl. rewrite Hm, Hd. reflexivity.
Qed.

Lemma calculateTotal_no_bucket map total daily log :
  log_type log = 1 ->
  map !! dayKey log = None ->
  calculateTotal map (total, daily) log = Throw TypeError.
Proof.
  intros Ht Hm. unfold calculateTotal, dayKey in *.
  rewrite Ht. simpl. rewrite Hm. reflexivity.
Qed.

(** *** What the fold keeps true *)

Lemma wellIndexed_insert map daily index b d :
  daily !! index = Some b ->
  wellIndexed map daily ->
  wellIndexed map (<[index := addDown b d]> daily).
Proof.
  intros Hb HW k j Hk. destruct (HW k j Hk) as (b' & Hb' & Hkey).
  destruct (decide (index = j)) as [->|Hne].
  - exists (addDown b d). rewrite list_lookup_insert_eq
      by (eapply lookup_lt_Some; exact Hb).
    split; [reflexivity|]. simpl. congruence.
  - exists b'. rewrite list_lookup_insert_ne by assumption. auto.
Qed.

Lemma sumTimes_insert daily : forall index b b',
  daily !! index = Some b ->
  sumTimes (<[index := b']> daily) = sumTimes daily - times (down b) + times (down b').
Proof.
  induction daily as [|x daily IH]; intros [|index] b b' H; simpl in *;
    try discriminate.
  - injection H as ->. lia.
  - rewrite (IH index b b' H). lia.
Qed.

Lemma sumDuration_insert daily : forall index b b',
  daily !! index = Some b ->
  sumDuration (<[index := b']> daily) =
  sumDuration daily - duration (down b) + duration (down b').
Proof.
  induction daily as [|x daily IH]; intros [|index] b b' H; simpl in *;
    try discriminate.
  - injection H as ->. lia.
  - rewrite (IH index b b' H). lia.
Qed.

Lemma map_insert_same {B} (f : @DailyBucket Dayjs Uptime -> B) daily : forall index b b',
  daily !! index = Some b -> f b' = f b ->
  List.map f (<[index := b']> daily) = List.map f daily.
Proof.
  induction daily as [|x daily IH]; intros [|index] b b' H E; simpl in *;
    try discriminate.
  - injection H as ->. rewrite E. reflexivity.
  - rewrite (IH index b b' H E). reflexivity.
Qed.

Lemma calculateTotal_keeps map total daily log total' daily' :
  calculateTotal map (total, daily) log = Normal (total', daily') ->
  keeps daily total daily' total'.
Proof.
  unfold calculateTotal. destruct (Z.eqb_spec (log_type log) 1) as [Ht|Ht].
  - destruct (map !! _) as [index|]; [|discriminate].
    destruct (daily !! index) as [b|] eqn:Hb; [|discriminate].
    intros H. injection H as <- <-. constructor.
    + eapply map_insert_same; [exact Hb|reflexivity].
    + eapply map_insert_same; [exact Hb|reflexivity].
    + rewrite (sumTimes_insert _ _ _ _ Hb). simpl. lia.
    + rewrite (sumDuration_insert _ _ _ _ Hb). simpl. lia.
  - intros H. injection H as <- <-. constructor; reflexivity || lia.
Qed.

Lemma reduceM_keeps map logs : forall total daily total' daily',
  reduceM (calculateTotal map) logs (total, daily) = Normal (total', daily') ->
  keeps daily total daily' total'.
Proof.
  induction logs as [|log logs IH]; intros total daily total' daily'; cbn [reduceM].
  - intros H. injection H as <- <-. constructor; reflexivity || lia.
  - destruct (calculateTotal map (total, daily) log) as [[t1 d1]|e] eqn:E;
      unfold bind; [|intros H; discriminate H].
    intros H. apply calculateTotal_keeps in E. apply IH in H.
    destruct E, H. constructor; try congruence; lia.
Qed.

Lemma reduceM_returns map logs : forall total daily,
  wellIndexed map daily ->
  Forall (fun log => log_type log = 1 -> is_Some (map !! dayKey log)) logs ->
  exists total' daily',
    reduceM (calculateTotal map) logs (total, daily) = Normal (total', daily').
Proof.
  induction logs as [|log logs IH]; intros total daily HW HF; cbn [reduceM].
  - eauto.
  - inversion HF as [|? ? Hlog Hlogs]; subst.
    destruct (Z.eq_dec (log_type log) 1) as [Ht|Ht].
    + destruct (Hlog Ht) as [index Hm].
      destruct (HW _ _ Hm) as (b & Hb & _).
      rewrite (calculateTotal_down _ _ _ _ _ _ Ht Hm Hb). cbn [bind].
      apply IH; [|exact Hlogs]. apply wellIndexed_insert; assumption.
    + rewrite (calculateTotal_other _ _ _ _ Ht). cbn [bind]. apply IH; assumption.
Qed.

Lemma reduceM_throws map logs : forall total daily,
  wellIndexed map daily ->
  Exists (fun log => log_type log = 1 /\ map !! dayKey log = None) logs ->
  reduceM (calculateTotal map) logs (total, daily) = Throw TypeError.
Proof.
  induction logs as [|log logs IH]; intros total daily HW HE; cbn [reduceM].
  - inversion HE.
  - destruct (Z.eq_dec (log_type log) 1) as [Ht|Ht].
    + destruct (map !! dayKey log) as [index|] eqn:Hm.
      * destruct (HW _ _ Hm) as (b & Hb & _).
        rewrite (calculateTotal_down _ _ _ _ _ _ Ht Hm Hb). cbn [bind].
        apply IH; [apply wellIndexed_insert; assumption|].
        inversion HE as [? ? [_ Hn]|]; subst; [congruence|assumption].
      * rewrite (calculateTotal_no_bucket _ _ _ _ Ht Hm). reflexivity.
    + rewrite (calculateTotal_other _ _ _ _ Ht). cbn [bind]. apply IH; [assumption|].
      inversion HE as [? ? [H1 _]|]; subst; [contradiction|assumption].
Qed.

End AggregatorFacts.

(* ===================================================================== *)
(** ** The priority sort *)
(* ===================================================================== *)

Lemma compareFn_priority siteSortArr v1 v2 :
  compareFn siteSortArr v1 v2 = priorityOf siteSortArr v2 - priorityOf siteSortArr v1.
Proof. reflexivity. Qed.

Lemma priorityOf_unmatched siteSort v :
  ~ matched siteSort v -> priorityOf (siteSortArr_of siteSort) v = 0.
Proof.
  unfold matched, priorityOf. intros H. apply indexOf_absent in H.
  rewrite H. reflexivity.
Qed.

Lemma priorityOf_matched siteSort v :
  matched siteSort v -> 1 <= priorityOf (siteSortArr_of siteSort) v.
Proof.
  unfold matched, priorityOf. intros H.
  pose proof (indexOf_ge (siteSortArr_of siteSort) (Js.trim (friendly_name v))) as Hge.
  assert (Hne : Js.indexOf (siteSortArr_of siteSort) (Js.trim (friendly_name v)) <> -1).
  { intros E. apply indexOf_absent in E. contradiction. }
  simpl. destruct (Z.eqb_spec
    (Js.indexOf (siteSortArr_of siteSort) (Js.trim (friendly_name v)) + 1) (-1)); lia.
Qed.

Lemma displayOrder_descending env siteSort data :
  VITE_SITE_SORT env = Some siteSort ->
  descending (priorityOf (siteSortArr_of siteSort)) (displayOrder env data).
Proof.
  intros H. unfold displayOrder. rewrite H.
  apply sort_descending. intros x y. apply compareFn_priority.
Qed.

(** After a monitor outside the list, only monitors outside the list. *)
Lemma unmatched_then_unmatched env siteSort data i j vi vj :
  VITE_SITE_SORT env = Some siteSort ->
  (i < j)%nat ->
  displayOrder env data !! i = Some vi ->
  displayOrder env data !! j = Some vj ->
  ~ matched siteSort vi ->
  ~ matched siteSort vj.
Proof.
  intros Henv Hij Hi Hj Hun Hm.
  pose proof (descending_lookup _ _ _ _ _ _
                (displayOrder_descending env siteSort data Henv) Hij Hi Hj) as Hle.
  rewrite (priorityOf_unmatched _ _ Hun) in Hle.
  pose proof (priorityOf_matched _ _ Hm). lia.
Qed.

Lemma lowestPriorityName_matched siteSort v name :
  lowestPriorityName siteSort = Some name ->
  Js.trim (friendly_name v) = name ->
  matched siteSort v.
Proof.
  unfold lowestPriorityName, matched, siteSortArr_of. intros Hlast ->.
  apply last_Some in Hlast as [l' ->].
  rewrite rev_app_distr. simpl. apply elem_of_cons. left. reflexivity.
Qed.

(** Sorting twice gives what sorting once gives, so the site list does
    not depend on whether the cached array was already put in order by an
    earlier call. *)
Lemma displayOrder_idempotent env data :
  displayOrder env (displayOrder env data) = displayOrder env data.
Proof.
  unfold displayOrder. destruct (VITE_SITE_SORT env) as [siteSort|]; [|reflexivity].
  apply (sort_of_descending (priorityOf (siteSortArr_of siteSort))).
  - intros x y. apply compareFn_priority.
  - apply sort_descending. intros x y. apply compareFn_priority.
Qed.

(** C6, as amended.  The comparator orders by a priority that is 0 for a
    monitor whose trimmed name is not in the configured list and at least
    1 for one whose trimmed name is; hence in the order [dataProcessing]
    produces, no monitor outside the list stands ahead of a monitor of the
    list: those outside come last. *)
Theorem sites_outside_the_list_come_last env siteSort data :
  VITE_SITE_SORT env = Some siteSort ->
  (forall v1 v2, compareFn (siteSortArr_of siteSort) v1 v2 =
                 priorityOf (siteSortArr_of siteSort) v2 -
                 priorityOf (siteSortArr_of siteSort) v1) /\
  (forall v, ~ matched siteSort v -> priorityOf (siteSortArr_of siteSort) v = 0) /\
  (forall v, matched siteSort v -> 1 <= priorityOf (siteSortArr_of siteSort) v) /\
  (forall i j vi vj,
     (i < j)%nat ->
     displayOrder env data !! i = Some vi ->
     displayOrder env data !! j = Some vj ->
     ~ matched siteSort vi -> ~ matched siteSort vj).
Proof.
  intros Henv. split; [intros; apply compareFn_priority|].
  split; [apply priorityOf_unmatched|].
  split; [apply priorityOf_matched|].
  intros i j vi vj. apply unmatched_then_unmatched. exact Henv.
Qed.

(* ===================================================================== *)
(** ** Facts about the processing of a monitor list *)
(* ===================================================================== *)

Section ProcessingFacts.

Context {Dayjs : Type} {dayjs : DayjsLib Dayjs}.
Context {Uptime : Type} (formatNumber : option string -> Uptime).

Implicit Types (dates : list Dayjs) (daily : list (@DailyBucket Dayjs Uptime)).
Implicit Types (monitor : Monitor) (log : Log) (env : ImportMetaEnv).

Lemma initDays_daily monitor dates :
  snd (initDays formatNumber monitor dates) =
  imap (fun k d => {| date := d;
                      uptime := formatNumber (removelast (splitRanges monitor) !! k);
                      down := {| times := 0; duration := 0 |} |}) dates.
Proof.
  unfold initDays, forEach.
  rewrite forEachFrom_fillDay_daily by reflexivity. reflexivity.
Qed.

Lemma initDays_dates monitor dates :
  List.map date (snd (initDays formatNumber monitor dates)) = dates.
Proof.
  rewrite initDays_daily. generalize (removelast (splitRanges monitor)).
  intros ranges.
  assert (G : forall (f : nat -> nat) (l : list Dayjs),
    List.map date (imap (fun k d => {| date := d;
       uptime := formatNumber (ranges !! f k);
       down := {| times := 0; duration := 0 |} |}) l) = l).
  { intros f l. revert f. induction l as [|d l IH]; intros f; simpl; [reflexivity|].
    f_equal. apply (IH (fun k => f (S k))). }
  apply (G (fun k => k)).
Qed.

Lemma initDays_lookup monitor dates k :
  is_Some (fst (initDays formatNumber monitor dates) !! k) <->
  k ∈ List.map format_YYYYMMDD dates.
Proof.
  unfold initDays, forEach.
  destruct (forEachFrom_fillDay_map formatNumber
              (removelast (splitRanges monitor)) dates 0%nat ∅ [] k) as [Hout Hin].
  simpl in *. split.
  - intros [j Hj]. destruct (decide (k ∈ List.map format_YYYYMMDD dates)) as [|Hn];
      [assumption|]. rewrite (Hout Hn), lookup_empty in Hj. discriminate.
  - intros H. destruct (Hin H) as (j & d & HM & _). eauto.
Qed.

(** Whatever the fold has made of [daily], as long as the dates are those
    requested, [map] points at buckets of the right day. *)
Lemma initDays_wellIndexed monitor dates daily :
  List.map date daily = dates ->
  wellIndexed (fst (initDays formatNumber monitor dates)) daily.
Proof.
  intros Hd k index Hk. unfold initDays, forEach in Hk.
  destruct (forEachFrom_fillDay_map formatNumber
              (removelast (splitRanges monitor)) dates 0%nat ∅ [] k) as [Hout Hin].
  simpl in *.
  destruct (decide (k ∈ List.map format_YYYYMMDD dates)) as [Hi|Hn].
  - destruct (Hin Hi) as (j & d & HM & Hj & Hf).
    rewrite HM in Hk. injection Hk as <-.
    rewrite <- Hd in Hj. rewrite list_lookup_fmap in Hj.
    destruct (daily !! j) as [b|]; [|discriminate].
    exists b. simpl in Hj. injection Hj as ->. auto.
  - rewrite (Hout Hn), lookup_empty in Hk. discriminate.
Qed.

Lemma sums_of_fresh_days (f : nat -> Dayjs -> Uptime) dates :
  sumTimes (imap (fun k d => {| date := d; uptime := f k d;
                               down := {| times := 0; duration := 0 |} |}) dates) = 0 /\
  sumDuration (imap (fun k d => {| date := d; uptime := f k d;
                                  down := {| times := 0; duration := 0 |} |}) dates) = 0.
Proof.
  revert f. induction dates as [|d dates IH]; intros f; simpl; [auto|].
  destruct (IH (fun k => f (S k))) as [H1 H2].
  unfold sumTimes, sumDuration in *. split.
  - etransitivity; [|exact H1]. reflexivity.
  - etransitivity; [|exact H2]. reflexivity.
Qed.

Lemma statusText_steps code :
  (let status := "unknown" in
   let status := if code =? 2 then "ok" else status in
   if code =? 9 then "down" else status) = statusText code.
Proof.
  unfold statusText. simpl.
  destruct (Z.eqb_spec code 2) as [->|]; [reflexivity|].
  destruct (code =? 9); reflexivity.
Qed.

(** What a returned site record holds. *)
Lemma processMonitor_result dates monitor r :
  processMonitor formatNumber dates monitor = Normal r ->
  site_id r = monitor_id monitor /\
  site_name r = friendly_name monitor /\
  site_url r = monitor_url monitor /\
  average r = formatNumber (last (splitRanges monitor)) /\
  List.map date (daily r) = dates /\
  List.map uptime (daily r) =
    imap (fun k _ => formatNumber (removelast (splitRanges monitor) !! k)) dates /\
  times (total r) = sumTimes (daily r) /\
  duration (total r) = sumDuration (daily r) /\
  site_status r = statusText (monitor_status monitor).
Proof.
  unfold processMonitor.
  pose proof (initDays_daily monitor dates) as Hdaily.
  pose proof (initDays_dates monitor dates) as Hdates.
  destruct (initDays formatNumber monitor dates) as [map daily0]. simpl in *.
  destruct (reduceM _ _ _) as [[total daily]|e] eqn:E; cbn [bind]; [|discriminate].
  intros H. injection H as <-. simpl.
  apply reduceM_keeps in E. destruct E as [Kd Ku Kt Kdur].
  destruct (sums_of_fresh_days
              (fun k _ => formatNumber (removelast (splitRanges monitor) !! k)) dates)
    as [S1 S2].
  rewrite <- Hdaily in S1, S2. simpl in *.
  repeat split; try reflexivity.
  - congruence.
  - rewrite Ku, Hdaily. clear. generalize (removelast (splitRanges monitor)).
    intros ranges.
    assert (G : forall (f : nat -> nat) (l : list Dayjs),
      List.map uptime (imap (fun k d => {| date := d;
         uptime := formatNumber (ranges !! f k);
         down := {| times := 0; duration := 0 |} |}) l)
      = imap (fun k (_ : Dayjs) => formatNumber (ranges !! f k)) l).
    { intros f l. revert f. induction l as [|d l IH]; intros f; simpl; [reflexivity|].
      f_equal. apply (IH (fun k => f (S k))). }
    apply (G (fun k => k)).
  - lia.
  - lia.
  - apply statusText_steps.
Qed.

Lemma processMonitor_returns dates monitor :
  logsOnRequestedDates dates monitor ->
  exists r, processMonitor formatNumber dates monitor = Normal r.
Proof.
  intros H. unfold processMonitor.
  pose proof (initDays_dates monitor dates) as Hdates.
  pose proof (fun k => initDays_lookup monitor dates k) as Hlook.
  pose proof (initDays_wellIndexed monitor dates) as HW.
  destruct (initDays formatNumber monitor dates) as [map daily0]. simpl in *.
  destruct (reduceM_returns map (monitor_logs monitor)
              {| times := 0; duration := 0 |} daily0) as (t & d & E).
  - apply HW. exact Hdates.
  - eapply Forall_impl; [exact H|]. intros log Hl Ht. apply Hlook. exact (Hl Ht).
  - rewrite E. cbn [bind]. eauto.
Qed.

Lemma processMonitor_throws dates monitor log :
  log ∈ monitor_logs monitor ->
  log_type log = 1 ->
  dayKey log ∉ List.map format_YYYYMMDD dates ->
  processMonitor formatNumber dates monitor = Throw TypeError.
Proof.
  intros Hin Ht Hout. unfold processMonitor.
  pose proof (initDays_dates monitor dates) as Hdates.
  pose proof (fun k => initDays_lookup monitor dates k) as Hlook.
  pose proof (initDays_wellIndexed monitor dates) as HW.
  destruct (initDays formatNumber monitor dates) as [map daily0]. simpl in *.
  rewrite reduceM_throws; [reflexivity|apply HW; exact Hdates|].
  apply Exists_exists. exists log. split; [exact Hin|]. split; [exact Ht|].
  destruct (map !! dayKey log) eqn:E; [|reflexivity].
  exfalso. apply Hout, Hlook. eauto.
Qed.

(** *** [map] with a throwing callback *)

Lemma mapM_Forall2 {A B} (f : A -> completion B) l : forall out,
  mapM f l = Normal out -> Forall2 (fun a b => f a = Normal b) l out.
Proof.
  induction l as [|a l IH]; intros out; cbn [mapM].
  - intros H. injection H as <-. constructor.
  - destruct (f a) as [b|e] eqn:E; cbn [bind]; [|discriminate].
    destruct (mapM f l) as [bs|e]; cbn [bind]; [|discriminate].
    intros H. injection H as <-. constructor; [exact E|]. apply IH. reflexivity.
Qed.

Lemma mapM_returns {A B} (f : A -> completion B) l :
  Forall (fun a => exists b, f a = Normal b) l ->
  exists out, mapM f l = Normal out.
Proof.
  induction 1 as [|a l [b Hb] _ [bs Hbs]]; cbn [mapM]; [eauto|].
  rewrite Hb. cbn [bind]. rewrite Hbs. cbn [bind]. eauto.
Qed.

Lemma mapM_throws {A B} (f : A -> completion B) e l a :
  (forall x e', f x = Throw e' -> e' = e) ->
  a ∈ l -> f a = Throw e -> mapM f l = Throw e.
Proof.
  intros Hone Hin Ha. induction l as [|x l IH]; [apply elem_of_nil in Hin; contradiction|].
  cbn [mapM]. apply elem_of_cons in Hin as [<-|Hin].
  - rewrite Ha. reflexivity.
  - destruct (f x) as [b|e'] eqn:E; cbn [bind].
    + rewrite (IH Hin). reflexivity.
    + f_equal. eapply Hone. exact E.
Qed.

Lemma processMonitor_only_TypeError dates monitor e :
  processMonitor formatNumber dates monitor = Throw e -> e = TypeError.
Proof.
  unfold processMonitor.
  destruct (initDays formatNumber monitor dates) as [map daily0].
  generalize ({| times := 0; duration := 0 |}) as total.
  generalize daily0 as daily.
  induction (monitor_logs monitor) as [|log logs IH]; intros daily total;
    cbn [reduceM bind].
  - discriminate.
  - destruct (calculateTotal map (total, daily) log) as [[t d]|e'] eqn:E; cbn [bind].
    + apply IH.
    + intros H. injection H as <-. unfold calculateTotal in E.
      destruct (log_type log =? 1); [|discriminate].
      destruct (map !! _) as [index|]; [|congruence].
      destruct (daily !! index); [discriminate|congruence].
Qed.

(** *** The whole of [dataProcessing] *)

Lemma sortSites_list env data :
  sortSites env (Some data) = Some (displayOrder env data).
Proof. unfold sortSites, displayOrder. destruct (VITE_SITE_SORT env); reflexivity. Qed.

Lemma displayOrder_perm env data : Permutation (displayOrder env data) data.
Proof.
  unfold displayOrder. destruct (VITE_SITE_SORT env); [apply sort_perm|reflexivity].
Qed.

Lemma dataProcessing_list env data dates :
  dataProcessing formatNumber env (Some data) dates =
  (out <-! mapM (processMonitor formatNumber dates) (displayOrder env data);
   Normal (Some out)).
Proof. unfold dataProcessing. rewrite sortSites_list. reflexivity. Qed.

Lemma dataProcessing_results env data dates out :
  dataProcessing formatNumber env (Some data) dates = Normal (Some out) ->
  Forall2 (fun monitor r => processMonitor formatNumber dates monitor = Normal r)
          (displayOrder env data) out.
Proof.
  rewrite dataProcessing_list.
  destruct (mapM _ _) as [o|e] eqn:E; cbn [bind]; [|discriminate].
  intros H. injection H as <-. apply mapM_Forall2. exact E.
Qed.

Lemma dataProcessing_returns env data dates :
  Forall (logsOnRequestedDates dates) data ->
  exists out, dataProcessing formatNumber env (Some data) dates = Normal (Some out).
Proof.
  intros H. rewrite dataProcessing_list.
  destruct (mapM_returns (processMonitor formatNumber dates) (displayOrder env data))
    as [out E].
  - rewrite (displayOrder_perm env data).
    eapply Forall_impl; [exact H|]. intros m. apply processMonitor_returns.
  - rewrite E. cbn [bind]. eauto.
Qed.

Lemma lookup_removelast {A} (l : list A) : forall i,
  (S i < length l)%nat -> removelast l !! i = l !! i.
Proof.
  induction l as [|x l IH]; intros i H; simpl in *; [lia|].
  destruct l as [|y l]; simpl in *; [lia|].
  destruct i as [|i]; [reflexivity|]. simpl. apply IH. lia.
Qed.

Lemma displayOrder_single env monitor : displayOrder env [monitor] = [monitor].
Proof. unfold displayOrder. destruct (VITE_SITE_SORT env); reflexivity. Qed.

(** The example of the specification, for any formatter and any two
    dates: the string "95.5-100.0-97.0" gives the average 97.0 and the
    days 95.5 and 100.0. *)
Lemma dataProcessing_two_days env (D0 D1 : Dayjs) monitor :
  custom_uptime_ranges monitor = "95.5-100.0-97.0" ->
  logsOnRequestedDates [D0; D1] monitor ->
  exists r,
    dataProcessing formatNumber env (Some [monitor]) [D0; D1] = Normal (Some [r]) /\
    average r = formatNumber (Some "97.0") /\
    List.map (fun b => (date b, uptime b)) (daily r) =
      [(D0, formatNumber (Some "95.5")); (D1, formatNumber (Some "100.0"))].
Proof.
  intros Hstr Hlogs.
  destruct (processMonitor_returns [D0; D1] monitor Hlogs) as [r Hr].
  exists r. rewrite dataProcessing_list, displayOrder_single. cbn [mapM bind].
  rewrite Hr. cbn [bind]. split; [reflexivity|].
  apply processMonitor_result in Hr.
  destruct Hr as (_ & _ & _ & Havg & Hdate & Hup & _).
  unfold splitRanges in *. rewrite Hstr in *. simpl in Havg, Hup.
  split; [exact Havg|].
  destruct (daily r) as [|b0 [|b1 [|b2 rest]]]; simpl in *; try discriminate.
  injection Hdate as -> ->. injection Hup as -> ->. reflexivity.
Qed.


End ProcessingFacts.

(* ===================================================================== *)
(** ** Properties of the aggregator *)
(* ===================================================================== *)

Section AggregatorProperties.

Context {Dayjs : Type} {dayjs : DayjsLib Dayjs}.
Context {Uptime : Type} (formatNumber : option string -> Uptime).

Implicit Types (dates : list Dayjs) (daily : list (@DailyBucket Dayjs Uptime)).
Implicit Types (monitor : Monitor) (log : Log) (env : ImportMetaEnv).

(** C1, as amended.  When the down-type logs of the monitors all fall on
    requested dates, [dataProcessing] returns, and for each monitor whose
    custom_uptime_ranges string joins N+1 dash-free values while N dates
    are requested, the site record has as average the formatted last
    value and as daily array exactly N entries, entry i carrying date i
    and the formatted value i. *)
Theorem dataProcessing_average_and_daily env dates data :
  Forall (logsOnRequestedDates dates) data ->
  exists out,
    dataProcessing formatNumber env (Some data) dates = Normal (Some out) /\
    Forall2 (averageAndDaily formatNumber dates) (displayOrder env data) out.
Proof.
  intros Hlogs.
  destruct (dataProcessing_returns formatNumber env data dates Hlogs) as [out Hout].
  exists out. split; [exact Hout|].
  apply dataProcessing_results in Hout.
  eapply Forall2_impl; [exact Hout|].
  intros monitor r Hr vals Hjoin Hfree Hlen.
  apply processMonitor_result in Hr.
  destruct Hr as (_ & _ & _ & Havg & Hdate & Hup & _).
  assert (Hsplit : splitRanges monitor = vals).
  { unfold splitRanges. rewrite Hjoin. apply split_join; [|exact Hfree].
    intros ->. discriminate. }
  rewrite Hsplit in Havg, Hup.
  split; [exact Havg|]. split.
  - rewrite <- (length_map date (daily r)), Hdate. reflexivity.
  - intros i d v Hd Hv.
    assert (Hb : List.map date (daily r) !! i = Some d) by (rewrite Hdate; exact Hd).
    rewrite list_lookup_fmap in Hb.
    destruct (daily r !! i) as [b|] eqn:Eb; [|discriminate].
    simpl in Hb. injection Hb as Hb.
    exists b. split; [reflexivity|]. split; [exact Hb|].
    assert (Hu : List.map uptime (daily r) !! i = Some (uptime b))
      by (rewrite list_lookup_fmap, Eb; reflexivity).
    rewrite Hup, list_lookup_imap, Hd in Hu. simpl in Hu. injection Hu as Hu.
    rewrite <- Hu, lookup_removelast, Hv; [reflexivity|].
    apply lookup_lt_Some in Hd. lia.
Qed.

(** C2, as amended.  At any point the fold over a monitor's logs reaches,
    a log that is of the down type and falls on a requested date raises
    the down counter by one and the duration by the log's in exactly one
    daily bucket, one whose date has the log's day key; a log of any other
    type leaves every bucket as it is. *)
Theorem calculateTotal_bumps_the_matching_bucket
    dates monitor (earlier : list Log) log total daily :
  reduceM (calculateTotal (fst (initDays formatNumber monitor dates))) earlier
          ({| times := 0; duration := 0 |}, snd (initDays formatNumber monitor dates))
    = Normal (total, daily) ->
  onRequestedDate dates log ->
  exists total' daily',
    calculateTotal (fst (initDays formatNumber monitor dates)) (total, daily) log
      = Normal (total', daily') /\
    (log_type log = 1 -> bumpsOneBucket daily daily' log) /\
    (log_type log <> 1 -> daily' = daily).
Proof.
  intros Hfold Hon.
  apply reduceM_keeps in Hfold. destruct Hfold as [Kd _ _ _].
  rewrite initDays_dates in Kd.
  pose proof (initDays_wellIndexed formatNumber monitor dates daily Kd) as HW.
  destruct (Z.eq_dec (log_type log) 1) as [Ht|Ht].
  - destruct (proj2 (initDays_lookup formatNumber monitor dates (dayKey log)) (Hon Ht))
      as [index Hm].
    destruct (HW _ _ Hm) as (b & Hb & Hkey).
    eexists _, _. split; [apply (calculateTotal_down _ _ _ _ _ _ Ht Hm Hb)|].
    split; [|contradiction]. intros _.
    exists index, b. split; [exact Hb|]. split; [exact Hkey|].
    split; [|split].
    + rewrite list_lookup_insert_eq by (eapply lookup_lt_Some; exact Hb). reflexivity.
    + apply length_insert.
    + intros i Hi. apply list_lookup_insert_ne. congruence.
  - eexists _, _. split; [apply calculateTotal_other; exact Ht|].
    split; [contradiction|reflexivity].
Qed.

(** C5.  In every list that [dataProcessing] returns, the record of a
    monitor with status code 2 has status "ok", with code 9 "down", and
    with any other code "unknown". *)
Theorem dataProcessing_status_mapping env dates data out :
  dataProcessing formatNumber env (Some data) dates = Normal (Some out) ->
  Forall2 statusFollowsCode (displayOrder env data) out.
Proof.
  intros Hout. apply dataProcessing_results in Hout.
  eapply Forall2_impl; [exact Hout|].
  intros monitor r Hr. apply processMonitor_result in Hr.
  destruct Hr as (_ & _ & _ & _ & _ & _ & _ & _ & Hs).
  unfold statusFollowsCode. rewrite Hs. unfold statusText. repeat split.
  - intros ->. reflexivity.
  - intros ->. reflexivity.
  - intros H2 H9.
    destruct (Z.eqb_spec (monitor_status monitor) 2); [contradiction|].
    destruct (Z.eqb_spec (monitor_status monitor) 9); [contradiction|reflexivity].
Qed.

(** C9.  [dataProcessing] returns only when every down-type log falls on
    a requested date: as soon as one monitor has a down-type log whose day
    key is that of no requested date, the bucket update reads a field of
    [undefined] and [dataProcessing] throws a TypeError instead of
    returning. *)
Theorem dataProcessing_throws_outside_dates env dates data :
  (forall monitor log,
     monitor ∈ data ->
     log ∈ monitor_logs monitor ->
     log_type log = 1 ->
     dayKey log ∉ List.map format_YYYYMMDD dates ->
     dataProcessing formatNumber env (Some data) dates = Throw TypeError) /\
  ((exists out, dataProcessing formatNumber env (Some data) dates = Normal out) ->
   Forall (logsOnRequestedDates dates) data).
Proof.
  assert (Hthrow : forall monitor log,
    monitor ∈ data -> log ∈ monitor_logs monitor -> log_type log = 1 ->
    dayKey log ∉ List.map format_YYYYMMDD dates ->
    dataProcessing formatNumber env (Some data) dates = Throw TypeError).
  { intros monitor log Hm Hl Ht Hout. rewrite dataProcessing_list.
    rewrite (mapM_throws (processMonitor formatNumber dates) TypeError
               (displayOrder env data) monitor); [reflexivity| | |].
    - intros x e. apply processMonitor_only_TypeError.
    - rewrite (displayOrder_perm env data). exact Hm.
    - eapply processMonitor_throws; eassumption. }
  split; [exact Hthrow|].
  intros [out Hout]. apply Forall_forall. intros monitor Hm.
  apply Forall_forall. intros log Hl Ht.
  destruct (decide (dayKey log ∈ List.map format_YYYYMMDD dates)) as [Hin|Hn];
    [exact Hin|].
  rewrite (Hthrow monitor log Hm Hl Ht Hn) in Hout. discriminate Hout.
Qed.

(** C10.  In every list that [dataProcessing] returns, each record's total
    is the sum of its daily buckets, for the count and for the duration. *)
Theorem dataProcessing_total_is_sum_of_daily env dates data out :
  dataProcessing formatNumber env (Some data) dates = Normal (Some out) ->
  Forall totalIsSumOfDaily out.
Proof.
  intros Hout. apply dataProcessing_results in Hout.
  induction Hout as [|monitor r l out' Hr _ IH]; constructor; [|exact IH].
  apply processMonitor_result in Hr.
  destruct Hr as (_ & _ & _ & _ & _ & _ & Ht & Hd & _). split; assumption.
Qed.

End AggregatorProperties.

(* ===================================================================== *)
(** ** The status rollup *)
(* ===================================================================== *)

Section PresenterProperties.

Context {Dayjs Uptime : Type}.
Implicit Types (data : list (@Site Dayjs Uptime)) (app : App).

Lemma statusIs_true s (item : @Site Dayjs Uptime) :
  statusIs s item = true <-> site_status item = s.
Proof. unfold statusIs. apply String.eqb_eq. Qed.

Lemma every_ok data :
  forallb (statusIs "ok") data = true <->
  Forall (fun item => site_status item = "ok") data.
Proof.
  induction data as [|x data IH]; simpl.
  - split; [constructor|reflexivity].
  - rewrite andb_true_iff, Forall_cons, IH, statusIs_true. reflexivity.
Qed.

Lemma some_ok data :
  existsb (statusIs "ok") data = false <->
  Forall (fun item => site_status item <> "ok") data.
Proof.
  induction data as [|x data IH]; simpl.
  - split; [constructor|reflexivity].
  - rewrite orb_false_iff, Forall_cons, IH.
    split; intros [H1 H2]; (split; [|exact H2]).
    + intros E. apply statusIs_true in E. congruence.
    + destruct (statusIs "ok" x) eqn:E; [|reflexivity].
      apply statusIs_true in E. contradiction.
Qed.

Lemma changeSite_state data app href :
  favicon app = Some href ->
  siteState (changeSite (Some data) app) =
    if forallb (statusIs "ok") data then "normal"
    else if existsb (statusIs "ok") data then "error" else "allError".
Proof.
  intros H. unfold changeSite. rewrite H.
  destruct (forallb _ data); [reflexivity|].
  destruct (existsb _ data); reflexivity.
Qed.

(** C4, as amended.  On a page that has its favicon link, the state that
    [changeSite] sets for a site list is "normal" exactly when every site
    is "ok", "allError" exactly when the list is not empty and no site is
    "ok", and "error" exactly in the remaining case. *)
Theorem changeSite_rollup data app href :
  favicon app = Some href ->
  (siteState (changeSite (Some data) app) = "normal" <->
     Forall (fun item => site_status item = "ok") data) /\
  (siteState (changeSite (Some data) app) = "allError" <->
     data <> [] /\ Forall (fun item => site_status item <> "ok") data) /\
  (siteState (changeSite (Some data) app) = "error" <->
     ~ Forall (fun item => site_status item = "ok") data /\
     ~ Forall (fun item => site_status item <> "ok") data).
Proof.
  intros H. rewrite (changeSite_state data app href H).
  pose proof (every_ok data) as Hall. pose proof (some_ok data) as Hany.
  assert (Hempty : data = [] -> forallb (statusIs "ok") data = true)
    by (intros ->; reflexivity).
  destruct (forallb (statusIs "ok") data) eqn:Eall.
  - assert (Hok : Forall (fun item => site_status item = "ok") data)
      by (apply Hall; reflexivity).
    split; [tauto|]. split.
    + split; [discriminate|]. intros [Hne Hno]. exfalso.
      destruct data as [|x data]; [congruence|].
      inversion Hok; inversion Hno; subst. contradiction.
    + split; [discriminate|]. intros [Hn _]. contradiction.
  - assert (Hnok : ~ Forall (fun item => site_status item = "ok") data)
      by (intros F; apply Hall in F; discriminate).
    destruct (existsb (statusIs "ok") data) eqn:Eany.
    + assert (Hsome : ~ Forall (fun item => site_status item <> "ok") data)
        by (intros F; apply Hany in F; discriminate).
      split; [split; [discriminate|contradiction]|].
      split; [split; [discriminate|tauto]|tauto].
    + assert (Hnone : Forall (fun item => site_status item <> "ok") data)
        by (apply Hany; reflexivity).
      split; [split; [discriminate|contradiction]|].
      split; [|split; [discriminate|tauto]].
      split; [|reflexivity]. intros _. split; [|exact Hnone].
      intros E. apply Hempty in E. discriminate.
Qed.

End PresenterProperties.

(* ===================================================================== *)
(** ** The proxy *)
(* ===================================================================== *)

Lemma getAll_dropName name (l : URLSearchParams.t) :
  URLSearchParams.getAll name (URLSearchParams.dropName name l) = [].
Proof.
  unfold URLSearchParams.getAll, URLSearchParams.dropName.
  induction l as [|q l IH]; simpl; [reflexivity|].
  destruct (URLSearchParams.hasName name q) eqn:Eq; simpl; [exact IH|].
  rewrite Eq. exact IH.
Qed.

Lemma set_getAll name value (l : URLSearchParams.t) :
  URLSearchParams.getAll name (URLSearchParams.set name value l) = [value].
Proof.
  induction l as [|p l IH]; simpl.
  - unfold URLSearchParams.getAll, URLSearchParams.hasName. simpl.
    rewrite String.eqb_refl. reflexivity.
  - destruct (URLSearchParams.hasName name p) eqn:E.
    + pose proof (getAll_dropName name l) as Hd.
      unfold URLSearchParams.getAll in *. simpl.
      unfold URLSearchParams.hasName at 1. simpl. rewrite String.eqb_refl. simpl.
      rewrite Hd. reflexivity.
    + unfold URLSearchParams.getAll in *. simpl. rewrite E. exact IH.
Qed.

Lemma dropName_same_but name (l1 l2 : URLSearchParams.t) :
  Forall2 (fun p q => fst p = fst q /\ (fst p <> name -> snd p = snd q)) l1 l2 ->
  URLSearchParams.dropName name l1 = URLSearchParams.dropName name l2.
Proof.
  unfold URLSearchParams.dropName, URLSearchParams.hasName.
  induction 1 as [|[n1 v1] [n2 v2] l1 l2 [Hn Hv] _ IH]; simpl in *; [reflexivity|].
  subst n2. destruct (String.eqb_spec n1 name) as [|Hne]; simpl; [exact IH|].
  rewrite (Hv Hne), IH. reflexivity.
Qed.

Lemma set_same_but name value (l1 l2 : URLSearchParams.t) :
  Forall2 (fun p q => fst p = fst q /\ (fst p <> name -> snd p = snd q)) l1 l2 ->
  URLSearchParams.set name value l1 = URLSearchParams.set name value l2.
Proof.
  induction 1 as [|[n1 v1] [n2 v2] l1 l2 [Hn Hv] HF IH]; simpl in *; [reflexivity|].
  subst n2. unfold URLSearchParams.hasName. simpl.
  destruct (String.eqb_spec n1 name) as [|Hne].
  - f_equal. apply dropName_same_but. exact HF.
  - rewrite (Hv Hne), IH. reflexivity.
Qed.

Lemma dropName_set name value (l : URLSearchParams.t) :
  URLSearchParams.dropName name (URLSearchParams.set name value l) =
  URLSearchParams.dropName name l.
Proof.
  unfold URLSearchParams.dropName.
  induction l as [|p l IH]; simpl.
  - unfold URLSearchParams.hasName. simpl. rewrite String.eqb_refl. reflexivity.
  - destruct (URLSearchParams.hasName name p) eqn:E; simpl.
    + unfold URLSearchParams.hasName at 1. simpl. rewrite String.eqb_refl. simpl.
      clear. induction l as [|q l IH]; simpl; [reflexivity|].
      destruct (URLSearchParams.hasName name q) eqn:Eq; simpl; [exact IH|].
      rewrite Eq. simpl. f_equal. exact IH.
    + rewrite E. simpl. f_equal. exact IH.
Qed.

(** Bodies that agree once their api_key pairs are taken out (one may
    carry a key where the other carries none, or carry it elsewhere) are
    forwarded with the same other parameters and the same single key;
    only the place of the key in the body may differ. *)
Lemma proxy_same_up_to_key_position
    (parse : string -> URLSearchParams.t) (apiKey : string) (req1 req2 : Proxy.Request) :
  URLSearchParams.dropName "api_key" (parse (Proxy.bodyOf req1)) =
  URLSearchParams.dropName "api_key" (parse (Proxy.bodyOf req2)) ->
  URLSearchParams.dropName "api_key" (Proxy.forwardedParams parse apiKey req1) =
  URLSearchParams.dropName "api_key" (Proxy.forwardedParams parse apiKey req2) /\
  URLSearchParams.getAll "api_key" (Proxy.forwardedParams parse apiKey req1) =
  URLSearchParams.getAll "api_key" (Proxy.forwardedParams parse apiKey req2).
Proof.
  intros H. unfold Proxy.forwardedParams.
  rewrite !dropName_set, !set_getAll. auto.
Qed.

(** C7.  For a POST request, with the server's key configured, the body
    sent upstream is the encoding of the request's parameters after
    [set("api_key", key)]: its only api_key is the server's key, and two
    requests whose bodies differ only in their api_key field are forwarded
    as the same body. *)
Theorem proxy_forwards_the_server_key
    (parse : string -> URLSearchParams.t) (serialize : URLSearchParams.t -> string)
    (fetch : string -> string -> completion Proxy.UpstreamReply)
    (apiKey : string) (req1 req2 : Proxy.Request) :
  Proxy.method req1 = "POST" ->
  Proxy.method req2 = "POST" ->
  apiKey <> "" ->
  Proxy.sameButKey parse (Proxy.bodyOf req1) (Proxy.bodyOf req2) ->
  Proxy.forwarded parse serialize (Some apiKey) req1 =
    Some (serialize (Proxy.forwardedParams parse apiKey req1)) /\
  Proxy.handler parse serialize (Some apiKey) fetch req1 =
    (r <-! fetch "https://api.uptimerobot.com/v2/getMonitors"
             (serialize (Proxy.forwardedParams parse apiKey req1));
     Normal {| Proxy.status := Proxy.reply_status r;
               Proxy.text := Proxy.reply_text r;
               Proxy.headers :=
                 [ ("Content-Type", orElse (Proxy.reply_content_type r) "application/json");
                   ("Cache-Control", "no-store") ] |}) /\
  URLSearchParams.getAll "api_key" (Proxy.forwardedParams parse apiKey req1) = [apiKey] /\
  Proxy.forwarded parse serialize (Some apiKey) req1 =
    Proxy.forwarded parse serialize (Some apiKey) req2.
Proof.
  intros H1 H2 Hkey Hsame.
  assert (Hk : String.eqb apiKey "" = false) by (apply String.eqb_neq; exact Hkey).
  unfold Proxy.forwarded, Proxy.handler. rewrite H1, H2. simpl. rewrite Hk.
  split; [reflexivity|]. split; [reflexivity|]. split.
  - apply set_getAll.
  - unfold Proxy.forwardedParams. do 2 f_equal. apply set_same_but. exact Hsame.
Qed.

(* ===================================================================== *)
(** ** The cache gate and the cache write *)
(* ===================================================================== *)

Section FetcherProperties.

Context {Dayjs : Type} {dayjs : DayjsLib Dayjs}.
Context {Uptime : Type} (formatNumber : option string -> Uptime).

Implicit Types (env : ImportMetaEnv) (w : @World Dayjs) (app : App).

Lemma changeSite_keeps (processed : option (list (@Site Dayjs Uptime))) app :
  siteData (changeSite processed app) = siteData app /\
  posted (changeSite processed app) = posted app.
Proof.
  unfold changeSite. destruct processed as [l|]; [|auto].
  destruct (favicon app); [|auto].
  destruct (forallb _ l); [auto|]. destruct (existsb _ l); auto.
Qed.

(** The in-place sort, seen from the store: the entry holds its array
    in display order, and nothing else has changed. *)
Lemma sortCached_spec env app :
  siteData (sortCached env app) = option_map (sortedEntry env) (siteData app) /\
  siteState (sortCached env app) = siteState app /\
  siteOverview (sortCached env app) = siteOverview app /\
  favicon (sortCached env app) = favicon app /\
  posted (sortCached env app) = posted app.
Proof.
  unfold sortCached. destruct (siteData app) as [entry|] eqn:E.
  - rewrite sortSites_list. simpl. repeat split.
  - rewrite E. repeat split.
Qed.

Lemma sortCached_stored env e app :
  sortCached env (changeSiteData e app) = changeSiteData (sortedEntry env e) app.
Proof. unfold sortCached. cbn [siteData changeSiteData]. rewrite sortSites_list. reflexivity. Qed.

Lemma sortCached_in_order env app :
  cacheInDisplayOrder env app -> siteData (sortCached env app) = siteData app.
Proof.
  intros H. rewrite (proj1 (sortCached_spec env app)).
  destruct (siteData app) as [entry|] eqn:E; [|reflexivity].
  simpl. unfold sortedEntry. rewrite (H entry E). destruct entry; reflexivity.
Qed.

Lemma serveFromCache_spec env entry dates app :
  let res := serveFromCache formatNumber env entry dates app in
  fst res = settleTimer (dataProcessing formatNumber env (Some (data entry)) dates) /\
  siteData (snd res) = option_map (sortedEntry env) (siteData app) /\
  posted (snd res) = posted app.
Proof.
  unfold serveFromCache.
  destruct (sortCached_spec env app) as (Hd & _ & _ & _ & Hq).
  destruct (dataProcessing formatNumber env (Some (data entry)) dates) as [processed|e];
    simpl; [|auto].
  destruct (changeSite_keeps processed (sortCached env app)) as [Hc Hp].
  rewrite Hc, Hp. auto.
Qed.

Lemma dataProcessing_of_undefined env dates :
  dataProcessing formatNumber env None dates = Normal None.
Proof. unfold dataProcessing, sortSites. destruct (VITE_SITE_SORT env); reflexivity. Qed.

(** [fetchAndStore], reply by reply. *)
Lemma fetchAndStore_by_reply env w postdata dates app :
  let app1 := recordPost (apiUrlOf env) (toFields postdata) app in
  fetchAndStore formatNumber env w postdata dates app =
    match axios_post w (apiUrlOf env) (toFields postdata) with
    | AxiosFailure =>
        (Rejected AxiosError, changeSiteState "wrong" (changeSiteState "wrong" app1))
    | AxiosResponse NullData => (Rejected TypeError, changeSiteState "wrong" app1)
    | AxiosResponse ScalarData => (Fulfilled None, changeSiteState "error" app1)
    | AxiosResponse (ObjectData p) =>
        if bool_decide (stat p = Some "fail")
        then (Rejected (ApiError ("API Error: " +:+ orElse (error_message p) "Unknown error")),
              changeSiteState "wrong" (changeSiteState "wrong" app1))
        else match monitors p with
             | None => (Fulfilled None, changeSiteState "error" app1)
             | Some l =>
                 let app2 :=
                   changeSiteData
                     {| data := displayOrder env l; timestamp := timeAtStore w |} app1 in
                 match dataProcessing formatNumber env (Some l) dates with
                 | Throw e => (Rejected e, changeSiteState "wrong" app2)
                 | Normal processed => (Fulfilled processed, changeSite processed app2)
                 end
             end
    end.
Proof.
  cbv zeta. unfold fetchAndStore, getMonitorsData.
  destruct (axios_post w (apiUrlOf env) (toFields postdata)) as [[| |p]|]; simpl;
    try reflexivity.
  - rewrite dataProcessing_of_undefined. reflexivity.
  - destruct (bool_decide (stat p = Some "fail")); simpl; [reflexivity|].
    destruct (monitors p) as [l|].
    + rewrite sortCached_stored. reflexivity.
    + rewrite dataProcessing_of_undefined. reflexivity.
Qed.


Lemma fetchAndStore_spec env w postdata dates app :
  let res := fetchAndStore formatNumber env w postdata dates app in
  let reply := axios_post w (apiUrlOf env) (toFields postdata) in
  posted (snd res) = posted app ++ [(apiUrlOf env, toFields postdata)] /\
  (forall e, fetchThrows reply e ->
     siteData (snd res) = siteData app /\ fst res = Rejected e) /\
  (forall l, fetchDelivers reply l ->
     siteData (snd res) =
       Some {| data := displayOrder env l; timestamp := timeAtStore w |}) /\
  (siteData (snd res) <> siteData app -> exists l, fetchDelivers reply l).
Proof.
  unfold fetchAndStore, getMonitorsData, fetchThrows, fetchDelivers.
  destruct (axios_post w (apiUrlOf env) (toFields postdata)) as [[| |p]|]; simpl.
  - (* null body: [response.monitors] throws *)
    split; [reflexivity|].
    split; [intros e [[? _]|(? & ? & _)]; discriminate|].
    split; [intros l (? & ? & _); discriminate|]. intros H; contradiction.
  - (* scalar body: nothing stored *)
    destruct (changeSite_keeps (None : option (list (@Site Dayjs Uptime)))
                (recordPost (apiUrlOf env) (toFields postdata) app)) as [Hc Hp].
    unfold dataProcessing, sortSites.
    destruct (VITE_SITE_SORT env); simpl; rewrite ?Hc, ?Hp;
      (split; [reflexivity|];
       split; [intros e [[? _]|(? & ? & _)]; discriminate|];
       split; [intros l (? & ? & _); discriminate|]; intros H; contradiction).
  - destruct (bool_decide_reflect (stat p = Some "fail")) as [Hfail|Hok]; simpl.
    + (* stat = fail *)
      split; [reflexivity|].
      split; [intros e [[? _]|(p' & E & _ & ->)];
              [discriminate|injection E as <-; auto]|].
      split; [intros l (p' & E & Hn & _); injection E as <-; contradiction|].
      intros H; contradiction.
    + destruct (monitors p) as [l|] eqn:Hms.
      * (* a monitor list: stored, and sorted where it is stored, whatever
           the rest of the processing does *)
        rewrite sortCached_stored. unfold sortedEntry. cbn [data timestamp].
        destruct (dataProcessing formatNumber env (Some l) dates) as [processed|e0]; simpl.
        -- destruct (changeSite_keeps processed
                       (changeSiteData
                          {| data := displayOrder env l; timestamp := timeAtStore w |}
                          (recordPost (apiUrlOf env) (toFields postdata) app)))
             as [Hc Hp].
           rewrite Hc, Hp. simpl.
           split; [reflexivity|].
           split; [intros e [[? _]|(p' & E & Hf & _)];
                   [discriminate|injection E as <-; contradiction]|].
           split; [intros l' (p' & E & _ & Hl); injection E as <-; congruence|].
           intros _. exists l, p. auto.
        -- split; [reflexivity|].
           split; [intros e [[? _]|(p' & E & Hf & _)];
                   [discriminate|injection E as <-; contradiction]|].
           split; [intros l' (p' & E & _ & Hl); injection E as <-; congruence|].
           intros _. exists l, p. auto.
      * (* no monitor list: nothing stored *)
        destruct (changeSite_keeps (None : option (list (@Site Dayjs Uptime)))
                    (recordPost (apiUrlOf env) (toFields postdata) app)) as [Hc Hp].
        unfold dataProcessing, sortSites.
        destruct (VITE_SITE_SORT env); simpl; rewrite ?Hc, ?Hp;
          (split; [reflexivity|];
           split; [intros e [[? _]|(p' & E & Hf & _)];
                   [discriminate|injection E as <-; contradiction]|];
           split; [intros l' (p' & E & _ & Hl); injection E as <-; congruence|];
           intros H; contradiction).
  - (* the request fails *)
    split; [reflexivity|].
    split; [intros e [[_ ->]|(? & ? & _)]; [auto|discriminate]|].
    split; [intros l (? & ? & _); discriminate|]. intros H; contradiction.
Qed.

(** The three ways through [getSiteData]. *)
Lemma getSiteData_paths env w apikey days app :
  let app0 := changeSiteState "loading" app in
  (days = 0%nat /\
   getSiteData formatNumber env w apikey days app =
     (Rejected TypeError, changeSiteState "wrong" app0)) \/
  (days <> 0%nat /\ exists postdata,
   getSiteData formatNumber env w apikey days app =
     match siteData app with
     | Some entry =>
         if timeAtCheck w - timestamp entry <? 60 * 1000
         then serveFromCache formatNumber env entry (datesOf w days) app0
         else fetchAndStore formatNumber env w postdata (datesOf w days) app0
     | None => fetchAndStore formatNumber env w postdata (datesOf w days) app0
     end).
Proof.
  destruct days as [|n]; [left; split; reflexivity|].
  right. split; [discriminate|]. unfold getSiteData.
  destruct (last (datesOf w (S n))) as [oldest|] eqn:El.
  - change (head (datesOf w (S n))) with (Some (subtract_days (today w) 0%nat)).
    cbv zeta. eexists. reflexivity.
  - apply last_None in El. discriminate.
Qed.

(** C3, as amended.  In a call for at least one day: when the cache holds
    an entry whose age is below 60 seconds, no request is sent and the
    promise is that of reprocessing the cached monitors for the requested
    dates (fulfilled with the result when the reprocessing returns); when
    the cache is empty or its entry is at least 60 seconds old, exactly
    one request is sent. *)
Theorem getSiteData_cache_gate env w apikey days app :
  days <> 0%nat ->
  (forall entry,
     siteData app = Some entry ->
     timeAtCheck w - timestamp entry < 60 * 1000 ->
     posted (snd (getSiteData formatNumber env w apikey days app)) = posted app /\
     fst (getSiteData formatNumber env w apikey days app) =
       settleTimer (dataProcessing formatNumber env (Some (data entry)) (datesOf w days))) /\
  (siteData app = None \/
   (exists entry, siteData app = Some entry /\
                  60 * 1000 <= timeAtCheck w - timestamp entry) ->
   exists url fields,
     posted (snd (getSiteData formatNumber env w apikey days app)) =
       posted app ++ [(url, fields)]).
Proof.
  intros Hdays.
  destruct (getSiteData_paths env w apikey days app) as [[H0 _]|[_ [postdata E]]];
    [contradiction|].
  rewrite E. split.
  - intros entry Hentry Hage. rewrite Hentry.
    destruct (Z.ltb_spec (timeAtCheck w - timestamp entry) (60 * 1000)); [|lia].
    destruct (serveFromCache_spec env entry (datesOf w days)
                (changeSiteState "loading" app)) as (Hr & _ & Hp).
    split; [exact Hp|exact Hr].
  - intros Hstale.
    destruct (fetchAndStore_spec env w postdata (datesOf w days)
                (changeSiteState "loading" app)) as (Hp & _).
    destruct Hstale as [Hnone|(entry & Hentry & Hage)].
    + rewrite Hnone. eauto.
    + rewrite Hentry.
      destruct (Z.ltb_spec (timeAtCheck w - timestamp entry) (60 * 1000)); [lia|].
      eauto.
Qed.



End FetcherProperties.

(* ===================================================================== *)
(** ** More about the order of the sites *)
(* ===================================================================== *)

Lemma indexOf_lt l x : Js.indexOf l x < Z.of_nat (length l).
Proof.
  induction l as [|y l IH]; simpl length; cbn [Js.indexOf]; [lia|].
  destruct (String.eqb y x); [lia|].
  destruct (Z.eqb_spec (Js.indexOf l x) (-1)); lia.
Qed.

Lemma indexOf_app_in l1 l2 x :
  x ∈ l1 -> Js.indexOf (l1 ++ l2) x = Js.indexOf l1 x.
Proof.
  induction l1 as [|y l1 IH]; intros H; [apply elem_of_nil in H; contradiction|].
  cbn [app Js.indexOf]. destruct (String.eqb_spec y x) as [|Hne]; [reflexivity|].
  apply elem_of_cons in H as [H|H]; [congruence|]. rewrite (IH H). reflexivity.
Qed.

Lemma indexOf_app_last l x :
  x ∉ l -> Js.indexOf (l ++ [x]) x = Z.of_nat (length l).
Proof.
  induction l as [|y l IH]; intros H; cbn [app Js.indexOf length].
  - rewrite String.eqb_refl. reflexivity.
  - apply not_elem_of_cons in H as [Hne Hl].
    destruct (String.eqb_spec y x) as [|_]; [congruence|].
    rewrite (IH Hl). destruct (Z.eqb_spec (Z.of_nat (length l)) (-1)); lia.
Qed.

Lemma elem_of_rev {A} (l : list A) x : x ∈ rev l <-> x ∈ l.
Proof.
  rewrite !list_elem_of_In. symmetry. apply in_rev.
Qed.

(** In the reversed list, a name that comes earlier in a duplicate-free
    list is found at a larger index. *)
Lemma indexOf_rev_order (cfg : list string) : forall p q x y,
  NoDup cfg -> (p < q)%nat -> cfg !! p = Some x -> cfg !! q = Some y ->
  Js.indexOf (rev cfg) y < Js.indexOf (rev cfg) x.
Proof.
  induction cfg as [|a cfg IH]; intros p q x y Hnd Hpq Hp Hq;
    [rewrite lookup_nil in Hp; discriminate|].
  apply NoDup_cons in Hnd as [Ha Hnd].
  destruct q as [|q]; [lia|]. cbn [rev]. simpl in Hq.
  assert (Hy : y ∈ rev cfg)
    by (apply elem_of_rev; eapply list_elem_of_lookup_2; exact Hq).
  rewrite (indexOf_app_in _ _ _ Hy).
  destruct p as [|p]; simpl in Hp.
  - injection Hp as <-. rewrite indexOf_app_last by (rewrite elem_of_rev; exact Ha).
    pose proof (indexOf_lt (rev cfg) y). lia.
  - assert (Hx : x ∈ rev cfg)
      by (apply elem_of_rev; eapply list_elem_of_lookup_2; exact Hp).
    rewrite (indexOf_app_in _ _ _ Hx). apply (IH p q); [assumption|lia|assumption..].
Qed.

(** X5.  With a configured list whose trimmed names are all different,
    a monitor named by an earlier entry stands before a monitor named by a
    later entry, wherever the two stood in the input. *)
Theorem named_sites_follow_the_list env siteSort data p q i j vi vj :
  VITE_SITE_SORT env = Some siteSort ->
  NoDup (List.map Js.trim (Js.split "," siteSort)) ->
  (p < q)%nat ->
  List.map Js.trim (Js.split "," siteSort) !! p = Some (Js.trim (friendly_name vi)) ->
  List.map Js.trim (Js.split "," siteSort) !! q = Some (Js.trim (friendly_name vj)) ->
  displayOrder env data !! i = Some vi ->
  displayOrder env data !! j = Some vj ->
  (i < j)%nat.
Proof.
  intros Henv Hnd Hpq Hp Hq Hi Hj.
  pose proof (indexOf_rev_order _ p q _ _ Hnd Hpq Hp Hq) as Hlt.
  assert (Hprio : priorityOf (siteSortArr_of siteSort) vj <
                  priorityOf (siteSortArr_of siteSort) vi).
  { unfold priorityOf, siteSortArr_of. cbv zeta.
    pose proof (indexOf_ge (rev (List.map Js.trim (Js.split "," siteSort)))
                  (Js.trim (friendly_name vi))).
    pose proof (indexOf_ge (rev (List.map Js.trim (Js.split "," siteSort)))
                  (Js.trim (friendly_name vj))).
    repeat match goal with |- context [?a =? -1] => destruct (Z.eqb_spec a (-1)) end; lia. }
  destruct (Nat.lt_trichotomy i j) as [H|[H|H]]; [exact H| |].
  - subst j. rewrite Hi in Hj. injection Hj as <-. lia.
  - pose proof (descending_lookup _ _ _ _ _ _
                  (displayOrder_descending env siteSort data Henv) H Hj Hi). lia.
Qed.

Lemma filter_insert_same_key {A} (key : A -> Z) (cmp : A -> A -> Z) (k : Z) x l :
  (forall a b, cmp a b = key b - key a) ->
  List.filter (fun a => key a =? k) (Js.insert cmp x l) =
  List.filter (fun a => key a =? k) (x :: l).
Proof.
  intros Hcmp. induction l as [|y l IH]; [reflexivity|].
  cbn [Js.insert]. rewrite Hcmp.
  destruct (Z.leb_spec (key y - key x) 0) as [Hle|Hgt]; [reflexivity|].
  cbn [List.filter] in *. rewrite IH.
  destruct (Z.eqb_spec (key x) k) as [Hx|Hx]; [|reflexivity].
  destruct (Z.eqb_spec (key y) k) as [Hy|Hy]; [lia|reflexivity].
Qed.

(** X6.  The sort is stable: the monitors of any one priority stand in
    the output in the order they had in the input.  So the monitors
    outside the configured list (priority 0) keep their order among
    themselves, and so do monitors that share a name. *)
Theorem equal_priority_keeps_input_order env siteSort data k :
  VITE_SITE_SORT env = Some siteSort ->
  withPriority (siteSortArr_of siteSort) k (displayOrder env data) =
  withPriority (siteSortArr_of siteSort) k data.
Proof.
  intros Henv. unfold displayOrder, withPriority. rewrite Henv.
  induction data as [|x data IH]; [reflexivity|].
  unfold Js.sort in *. cbn [foldr].
  rewrite (filter_insert_same_key (priorityOf (siteSortArr_of siteSort)))
    by (intros a b; apply compareFn_priority).
  cbn [List.filter]. rewrite IH. reflexivity.
Qed.

(* ===================================================================== *)
(** ** More about the aggregator *)
(* ===================================================================== *)

Section AggregatorMore.

Context {Dayjs : Type} {dayjs : DayjsLib Dayjs}.
Context {Uptime : Type} (formatNumber : option string -> Uptime).

Implicit Types (dates : list Dayjs) (daily : list (@DailyBucket Dayjs Uptime)).
Implicit Types (monitor : Monitor) (log : Log) (env : ImportMetaEnv).
Implicit Types (map : gmap string nat) (total : Down).

(** X1.  [dataProcessing] loses and invents no monitor: the list it
    returns has one record per monitor of a rearrangement of the input,
    each with the id, the name and the url of its monitor. *)
Theorem dataProcessing_keeps_every_monitor env dates data out :
  dataProcessing formatNumber env (Some data) dates = Normal (Some out) ->
  Permutation (displayOrder env data) data /\
  length out = length data /\
  Forall2 (fun monitor r =>
             site_id r = monitor_id monitor /\
             site_name r = friendly_name monitor /\
             site_url r = monitor_url monitor)
          (displayOrder env data) out.
Proof.
  intros Hout. apply dataProcessing_results in Hout.
  split; [apply displayOrder_perm|]. split.
  - rewrite <- (Permutation_length (displayOrder_perm env data)).
    symmetry. eapply Forall2_length. exact Hout.
  - eapply Forall2_impl; [exact Hout|]. intros monitor r Hr.
    apply processMonitor_result in Hr. tauto.
Qed.

(** X2.  Whatever the uptime string holds, a returned record has one
    daily entry per requested date, in the order of the dates; entry i
    has the formatted piece i of the string while that piece is not the
    last one, and [formatNumber(undefined)] from there on. *)
Theorem dataProcessing_daily_for_any_string env dates data out :
  dataProcessing formatNumber env (Some data) dates = Normal (Some out) ->
  Forall2 (fun monitor r =>
             List.map date (daily r) = dates /\
             forall i b, daily r !! i = Some b ->
               ((S i < length (splitRanges monitor))%nat ->
                uptime b = formatNumber (splitRanges monitor !! i)) /\
               ((length (splitRanges monitor) <= S i)%nat ->
                uptime b = formatNumber None))
          (displayOrder env data) out.
Proof.
  intros Hout. apply dataProcessing_results in Hout.
  eapply Forall2_impl; [exact Hout|]. intros monitor r Hr.
  apply processMonitor_result in Hr.
  destruct Hr as (_ & _ & _ & _ & Hdate & Hup & _).
  split; [exact Hdate|]. intros i b Hb.
  assert (Hu : List.map uptime (daily r) !! i = Some (uptime b))
    by (rewrite list_lookup_fmap, Hb; reflexivity).
  assert (Hd : is_Some (dates !! i)).
  { rewrite <- Hdate, list_lookup_fmap, Hb. simpl. eauto. }
  destruct Hd as [d Hd].
  rewrite Hup, list_lookup_imap, Hd in Hu. simpl in Hu. injection Hu as Hu.
  split; intros Hlen; rewrite <- Hu.
  - rewrite lookup_removelast by exact Hlen. reflexivity.
  - f_equal. apply lookup_ge_None.
    assert (Hrl : forall (A : Type) (l : list A), length (removelast l) = pred (length l)).
    { intros A l. induction l as [|x [|y l] IH]; simpl in *; [reflexivity..|].
      rewrite IH. reflexivity. }
    rewrite Hrl. lia.
Qed.

Lemma reduceM_counts_down map (logs : list Log) : forall total daily total' daily',
  reduceM (calculateTotal map) logs (total, daily) = Normal (total', daily') ->
  times total' = times total + Z.of_nat (length (List.filter isDown logs)) /\
  duration total' = duration total + totalDuration (List.filter isDown logs).
Proof.
  induction logs as [|log logs IH]; intros total daily total' daily'; cbn [reduceM].
  - intros H. injection H as <- <-. simpl. lia.
  - destruct (calculateTotal map (total, daily) log) as [[t1 d1]|e] eqn:E;
      cbn [bind]; [|intros H; discriminate H].
    intros H. apply IH in H. destruct H as [H1 H2].
    unfold calculateTotal in E. cbn [List.filter].
    change (isDown log) with (log_type log =? 1).
    destruct (log_type log =? 1).
    + destruct (map !! _) as [index|]; [|discriminate].
      destruct (daily !! index); [|discriminate].
      injection E as <- <-. cbn [times duration] in H1, H2.
      rewrite H1, H2. cbn [length totalDuration foldr].
      fold (totalDuration (List.filter isDown logs)).
      rewrite Nat2Z.inj_succ. lia.
    + injection E as <- <-. auto.
Qed.

(** X3.  In every returned record the total counts the down-type logs of
    the monitor and adds up their durations; logs of other types count
    for nothing. *)
Theorem total_counts_the_down_logs env dates data out :
  dataProcessing formatNumber env (Some data) dates = Normal (Some out) ->
  Forall2 (fun monitor r =>
             times (total r) = Z.of_nat (length (downLogs monitor)) /\
             duration (total r) = totalDuration (downLogs monitor))
          (displayOrder env data) out.
Proof.
  intros Hout. apply dataProcessing_results in Hout.
  eapply Forall2_impl; [exact Hout|]. intros monitor r Hr.
  unfold processMonitor in Hr.
  destruct (initDays formatNumber monitor dates) as [map daily0].
  destruct (reduceM _ _ _) as [[t d]|e] eqn:E; cbn [bind] in Hr; [|discriminate].
  injection Hr as <-. simpl. apply reduceM_counts_down in E. simpl in E.
  unfold downLogs. destruct E as [E1 E2]. rewrite E1, E2. auto.
Qed.

Lemma reduceM_counts_bucket map (logs : list Log) index :
  forall total daily total' daily' b,
  reduceM (calculateTotal map) logs (total, daily) = Normal (total', daily') ->
  daily !! index = Some b ->
  exists b',
    daily' !! index = Some b' /\
    times (down b') = times (down b) +
      Z.of_nat (length (List.filter
        (fun log => isDown log && bool_decide (map !! dayKey log = Some index)) logs)) /\
    duration (down b') = duration (down b) +
      totalDuration (List.filter
        (fun log => isDown log && bool_decide (map !! dayKey log = Some index)) logs).
Proof.
  induction logs as [|log logs IH]; intros total daily total' daily' b; cbn [reduceM].
  - intros H Hb. injection H as <- <-. exists b. simpl. split; [exact Hb|lia].
  - destruct (calculateTotal map (total, daily) log) as [[t1 d1]|e] eqn:E;
      cbn [bind]; [|intros H; discriminate H].
    intros H Hb. unfold calculateTotal in E. cbn [List.filter].
    change (isDown log) with (log_type log =? 1).
    change (dayKey log) with (format_YYYYMMDD (dayjs_unix (log_datetime log))).
    destruct (log_type log =? 1).
    + destruct (map !! format_YYYYMMDD (dayjs_unix (log_datetime log)))
        as [j|] eqn:Hm; [|discriminate].
      destruct (daily !! j) as [bj|] eqn:Hj; [|discriminate].
      injection E as <- <-. cbn [andb].
      destruct (decide (j = index)) as [->|Hne].
      * rewrite Hb in Hj. injection Hj as <-.
        destruct (IH _ _ _ _ (addDown b (log_duration log)) H) as (b' & Hb' & Ht & Hd).
        { apply list_lookup_insert_eq. eapply lookup_lt_Some. exact Hb. }
        exists b'. split; [exact Hb'|].
        rewrite bool_decide_true by reflexivity.
        simpl in *. unfold totalDuration in *. simpl. lia.
      * destruct (IH _ _ _ _ b H) as (b' & Hb' & Ht & Hd).
        { rewrite list_lookup_insert_ne by exact Hne. exact Hb. }
        exists b'. split; [exact Hb'|].
        rewrite bool_decide_false by congruence. auto.
    + injection E as <- <-. cbn [andb]. eapply IH; eassumption.
Qed.

Lemma filter_filter {A} (f g : A -> bool) (l : list A) :
  List.filter f (List.filter g l) = List.filter (fun x => g x && f x) l.
Proof.
  induction l as [|x l IH]; [reflexivity|]. cbn [List.filter].
  destruct (g x); cbn [List.filter andb]; [destruct (f x)|]; rewrite IH; reflexivity.
Qed.

Lemma filter_agree {A} (f g : A -> bool) (l : list A) :
  Forall (fun x => f x = g x) l -> List.filter f l = List.filter g l.
Proof.
  induction 1 as [|x l Hx _ IH]; [reflexivity|].
  cbn [List.filter]. rewrite Hx, IH. reflexivity.
Qed.

(** With different day keys for the requested dates, the key of date
    [index] leads to [index]. *)
Lemma initDays_index monitor dates index d :
  NoDup (List.map format_YYYYMMDD dates) ->
  dates !! index = Some d ->
  fst (initDays formatNumber monitor dates) !! format_YYYYMMDD d = Some index.
Proof.
  intros Hnd Hd. unfold initDays, forEach.
  destruct (forEachFrom_fillDay_map formatNumber
              (removelast (splitRanges monitor)) dates 0%nat ∅ []
              (format_YYYYMMDD d)) as [_ Hin].
  simpl in Hin. destruct Hin as (j & d' & HM & Hj & Hf).
  { apply list_elem_of_lookup. exists index. rewrite list_lookup_fmap, Hd. reflexivity. }
  rewrite HM. f_equal.
  apply (NoDup_lookup _ j index (format_YYYYMMDD d) Hnd);
    rewrite list_lookup_fmap; [rewrite Hj; simpl; congruence|rewrite Hd; reflexivity].
Qed.

Lemma processMonitor_buckets dates monitor r :
  NoDup (List.map format_YYYYMMDD dates) ->
  processMonitor formatNumber dates monitor = Normal r ->
  forall i d b,
    dates !! i = Some d -> daily r !! i = Some b ->
    times (down b) = Z.of_nat (length (downLogsOn d monitor)) /\
    duration (down b) = totalDuration (downLogsOn d monitor).
Proof.
  intros Hnd Hr i d b Hd Hb.
  pose proof (initDays_index monitor dates i d Hnd Hd) as Hidx.
  pose proof (initDays_daily formatNumber monitor dates) as Hdaily.
  pose proof (initDays_dates formatNumber monitor dates) as Hdates.
  pose proof (fun daily => initDays_wellIndexed formatNumber monitor dates daily) as HW.
  unfold processMonitor in Hr.
  destruct (initDays formatNumber monitor dates) as [map daily0]. simpl in *.
  destruct (reduceM _ _ _) as [[t dl]|e] eqn:E; cbn [bind] in Hr; [|discriminate].
  injection Hr as <-. simpl in Hb.
  assert (H0 : daily0 !! i =
               Some {| date := d;
                       uptime := formatNumber (removelast (splitRanges monitor) !! i);
                       down := {| times := 0; duration := 0 |} |}).
  { rewrite Hdaily, list_lookup_imap, Hd. reflexivity. }
  destruct (reduceM_counts_bucket map _ i _ _ _ _ _ E H0) as (b' & Hb' & Ht & Hdu).
  rewrite Hb in Hb'. injection Hb' as <-. simpl in Ht, Hdu.
  assert (Hsame :
    List.filter (fun log => isDown log && bool_decide (map !! dayKey log = Some i))
                (monitor_logs monitor) = downLogsOn d monitor).
  { unfold downLogsOn, downLogs. rewrite filter_filter. apply filter_agree.
    apply Forall_forall. intros log _. f_equal.
    destruct (String.eqb_spec (dayKey log) (format_YYYYMMDD d)) as [Heq|Hne].
    - apply bool_decide_eq_true. rewrite Heq. exact Hidx.
    - apply bool_decide_eq_false. intros Hm.
      destruct (HW daily0 Hdates _ _ Hm) as (b0 & Hb0 & Hk).
      rewrite H0 in Hb0. injection Hb0 as <-. simpl in Hk. congruence. }
  rewrite Hsame in Ht, Hdu. split; lia.
Qed.

(** X4.  When the requested dates have different day keys, the bucket of
    a date counts the down-type logs that start on that day and adds up
    their durations. *)
Theorem bucket_counts_the_logs_of_its_day env dates data out :
  NoDup (List.map format_YYYYMMDD dates) ->
  dataProcessing formatNumber env (Some data) dates = Normal (Some out) ->
  Forall2 (fun monitor r =>
             forall i d b,
               dates !! i = Some d -> daily r !! i = Some b ->
               times (down b) = Z.of_nat (length (downLogsOn d monitor)) /\
               duration (down b) = totalDuration (downLogsOn d monitor))
          (displayOrder env data) out.
Proof.
  intros Hnd Hout. apply dataProcessing_results in Hout.
  eapply Forall2_impl; [exact Hout|]. intros monitor r Hr.
  apply processMonitor_buckets; assumption.
Qed.

End AggregatorMore.

(* ===================================================================== *)
(** ** More about the presenter and the fetcher *)
(* ===================================================================== *)

Lemma filter_length_perm {A} (f : A -> bool) (l1 l2 : list A) :
  Permutation l1 l2 -> length (List.filter f l1) = length (List.filter f l2).
Proof.
  induction 1 as [|x l1 l2 _ IH|x y l|l1 l2 l3 _ IH1 _ IH2]; cbn [List.filter].
  - reflexivity.
  - destruct (f x); simpl; congruence.
  - destruct (f x), (f y); reflexivity.
  - congruence.
Qed.

Lemma includes_append s1 s2 c :
  includes (s1 +:+ s2) c = includes s1 c || includes s2 c.
Proof.
  induction s1 as [|a s1 IH]; [reflexivity|].
  simpl. rewrite IH, orb_assoc. reflexivity.
Qed.

Lemma pretty_N_go_dashFree (x : N) : forall s,
  includes s "-" = false -> includes (pretty_N_go x s) "-" = false.
Proof.
  induction (N.lt_wf_0 x) as [x _ IH]. intros s Hs.
  destruct (N.eq_dec x 0%N) as [->|Hx]; [rewrite pretty_N_go_0; exact Hs|].
  rewrite pretty_N_go_step by lia. apply IH; [apply N.div_lt; lia|].
  cbn [includes]. rewrite Hs, orb_false_r.
  unfold pretty_N_char. repeat case_match; reflexivity.
Qed.

(** The decimal text of a non-negative integer has no dash in it. *)
Lemma pretty_dashFree (z : Z) : 0 <= z -> dashFree (pretty z).
Proof.
  intros Hz. unfold dashFree. destruct z as [|p|p]; [reflexivity| |lia].
  change (pretty (Z.pos p)) with (pretty (N.pos p)).
  unfold pretty, pretty_N. destruct (decide (N.pos p = 0%N)); [reflexivity|].
  apply pretty_N_go_dashFree. reflexivity.
Qed.

Section FetcherMore.

Context {Dayjs : Type} {dayjs : DayjsLib Dayjs}.
Context {Uptime : Type} (formatNumber : option string -> Uptime).

Implicit Types (env : ImportMetaEnv) (w : @World Dayjs) (app : App).
Implicit Types (dates : list Dayjs).

Lemma changeSite_overview (data : list (@Site Dayjs Uptime)) app href :
  favicon app = Some href ->
  siteOverview (changeSite (Some data) app) =
    {| count := length data;
       okCount := length (filter (fun item => statusIs "ok" item = true) data);
       downCount := length (filter (fun item => statusIs "down" item = true) data);
       unknownCount := length (filter (fun item => statusIs "unknown" item = true) data) |}.
Proof.
  intros H. unfold changeSite. rewrite H.
  destruct (forallb _ data); [reflexivity|]. destruct (existsb _ data); reflexivity.
Qed.

Lemma count_status_by_code (s : string) (f : Z -> bool)
    (l : list Monitor) (out : list (@Site Dayjs Uptime)) :
  (forall code, String.eqb (statusText code) s = f code) ->
  Forall2 (fun monitor r => site_status r = statusText (monitor_status monitor)) l out ->
  length (filter (fun item => statusIs s item = true) out) =
  length (List.filter (fun m => f (monitor_status m)) l).
Proof.
  intros Hf. induction 1 as [|m r l out Hr _ IH]; [reflexivity|].
  assert (Hs : statusIs s r = f (monitor_status m))
    by (unfold statusIs; rewrite Hr; apply Hf).
  rewrite filter_cons. cbn [List.filter]. rewrite <- Hs.
  destruct (decide (statusIs s r = true)) as [Ht|Hn].
  - rewrite Ht. simpl. rewrite IH. reflexivity.
  - destruct (statusIs s r); [congruence|exact IH].
Qed.

(** X7.  After [dataProcessing] and [changeSite] on a page with the
    favicon link, the overview counts the monitors of the response by
    status code: all of them, those with code 2 as ok, those with code 9
    as down and the rest as unknown; the three counts add up to the
    total. *)
Theorem overview_counts_monitors_by_code env dates data out app href :
  dataProcessing formatNumber env (Some data) dates = Normal (Some out) ->
  favicon app = Some href ->
  count (siteOverview (changeSite (Some out) app)) = length data /\
  okCount (siteOverview (changeSite (Some out) app)) = length (withCode 2 data) /\
  downCount (siteOverview (changeSite (Some out) app)) = length (withCode 9 data) /\
  unknownCount (siteOverview (changeSite (Some out) app)) =
    length (List.filter (fun m => negb (monitor_status m =? 2) &&
                                  negb (monitor_status m =? 9)) data) /\
  (okCount (siteOverview (changeSite (Some out) app)) +
   downCount (siteOverview (changeSite (Some out) app)) +
   unknownCount (siteOverview (changeSite (Some out) app)) =
   count (siteOverview (changeSite (Some out) app)))%nat.
Proof.
  intros Hout Hfav. rewrite (changeSite_overview out app href Hfav). cbn [count okCount downCount unknownCount].
  apply dataProcessing_results in Hout.
  assert (Hst : Forall2 (fun monitor r => site_status r = statusText (monitor_status monitor))
                        (displayOrder env data) out).
  { eapply Forall2_impl; [exact Hout|]. intros m r Hr.
    apply processMonitor_result in Hr. tauto. }
  pose proof (displayOrder_perm env data) as Hperm.
  assert (Hlen : length out = length data).
  { rewrite <- (Permutation_length Hperm). symmetry. eapply Forall2_length. exact Hout. }
  assert (Hok : length (filter (fun item : @Site Dayjs Uptime => statusIs "ok" item = true) out)
                = length (withCode 2 data)).
  { etransitivity; [|apply (filter_length_perm _ _ _ Hperm)].
    apply (count_status_by_code "ok" (fun c => c =? 2)); [|exact Hst].
    intros code. unfold statusText. destruct (code =? 2); [reflexivity|].
    destruct (code =? 9); reflexivity. }
  assert (Hdown : length (filter (fun item : @Site Dayjs Uptime => statusIs "down" item = true) out)
                  = length (withCode 9 data)).
  { etransitivity; [|apply (filter_length_perm _ _ _ Hperm)].
    apply (count_status_by_code "down" (fun c => c =? 9)); [|exact Hst].
    intros code. unfold statusText. destruct (Z.eqb_spec code 2) as [->|]; [reflexivity|].
    destruct (code =? 9); reflexivity. }
  assert (Hunk : length (filter (fun item : @Site Dayjs Uptime => statusIs "unknown" item = true) out)
                 = length (List.filter (fun m => negb (monitor_status m =? 2) &&
                                                 negb (monitor_status m =? 9)) data)).
  { etransitivity; [|apply (filter_length_perm _ _ _ Hperm)].
    apply (count_status_by_code "unknown" (fun c => negb (c =? 2) && negb (c =? 9)));
      [|exact Hst].
    intros code. unfold statusText. destruct (code =? 2); [reflexivity|].
    destruct (code =? 9); reflexivity. }
  rewrite Hok, Hdown, Hunk, Hlen. repeat split.
  unfold withCode. clear. induction data as [|m data IH]; [reflexivity|].
  cbn [List.filter length].
  destruct (Z.eqb_spec (monitor_status m) 2) as [E2|E2];
    destruct (Z.eqb_spec (monitor_status m) 9) as [E9|E9];
    cbn [negb andb length]; lia.
Qed.

Lemma changeSite_settled (processed : option (list (@Site Dayjs Uptime))) app :
  siteState (changeSite processed app) = "normal" \/
  siteState (changeSite processed app) = "error" \/
  siteState (changeSite processed app) = "allError".
Proof.
  unfold changeSite. destruct processed as [l|]; [|auto].
  destruct (favicon app); [|auto].
  destruct (forallb _ l); [auto|]. destruct (existsb _ l); auto.
Qed.

Lemma last_datesOf w n :
  last (datesOf w (S n)) = Some (subtract_days (today w) n).
Proof.
  unfold datesOf. rewrite seq_S, map_app. simpl. apply last_snoc.
Qed.

(** [getSiteData] with its request written out. *)
Lemma getSiteData_request env w apikey days app :
  days <> 0%nat ->
  getSiteData formatNumber env w apikey days app =
    match siteData app with
    | Some entry =>
        if timeAtCheck w - timestamp entry <? 60 * 1000
        then serveFromCache formatNumber env entry (datesOf w days)
               (changeSiteState "loading" app)
        else fetchAndStore formatNumber env w (requestOf w apikey days) (datesOf w days)
               (changeSiteState "loading" app)
    | None => fetchAndStore formatNumber env w (requestOf w apikey days) (datesOf w days)
                (changeSiteState "loading" app)
    end.
Proof.
  destruct days as [|n]; [congruence|]. intros _.
  unfold getSiteData. rewrite last_datesOf.
  change (head (datesOf w (S n))) with (Some (subtract_days (today w) 0%nat)).
  cbv zeta. unfold requestOf, spanOf.
  replace (S n - 1)%nat with n by lia. reflexivity.
Qed.

Lemma fetchAndStore_posted env w postdata dates app :
  posted (snd (fetchAndStore formatNumber env w postdata dates app)) =
  posted app ++ [(apiUrlOf env, toFields postdata)].
Proof. apply fetchAndStore_spec. Qed.

(** A call that sent a request took the fetching branch, and the request
    is the one of [requestOf]. *)
Lemma getSiteData_fetched env w apikey days app url fields :
  posted (snd (getSiteData formatNumber env w apikey days app)) =
    posted app ++ [(url, fields)] ->
  days <> 0%nat /\
  url = apiUrlOf env /\
  fields = toFields (requestOf w apikey days) /\
  getSiteData formatNumber env w apikey days app =
    fetchAndStore formatNumber env w (requestOf w apikey days) (datesOf w days)
      (changeSiteState "loading" app).
Proof.
  assert (Hno : forall (x : string * FormFields), posted app <> posted app ++ [x]).
  { intros x H. apply (f_equal length) in H. rewrite length_app in H. simpl in H. lia. }
  intros H. destruct (Nat.eq_dec days 0%nat) as [->|Hdays].
  { simpl in H. destruct (Hno _ H). }
  split; [exact Hdays|]. rewrite (getSiteData_request env w apikey days app Hdays) in *.
  assert (Hfetch :
    posted (snd (fetchAndStore formatNumber env w (requestOf w apikey days)
                   (datesOf w days) (changeSiteState "loading" app))) =
      posted app ++ [(url, fields)] ->
    url = apiUrlOf env /\ fields = toFields (requestOf w apikey days)).
  { rewrite fetchAndStore_posted. simpl. intros E.
    apply app_inj_tail in E as [_ E]. injection E as <- <-. auto. }
  destruct (siteData app) as [entry|]; [|destruct (Hfetch H); auto].
  destruct (timeAtCheck w - timestamp entry <? 60 * 1000); [|destruct (Hfetch H); auto].
  destruct (serveFromCache_spec formatNumber env entry (datesOf w days)
              (changeSiteState "loading" app)) as (_ & _ & Hq).
  simpl in Hq. rewrite Hq in H. destruct (Hno _ H).
Qed.


Lemma rangeOf_dashFree (date : Dayjs) :
  0 <= unix date -> 0 <= unix (add_day date) -> dashFree (rangeOf date).
Proof.
  intros H1 H2. unfold dashFree, rangeOf.
  rewrite !includes_append, (pretty_dashFree _ H1), (pretty_dashFree _ H2). reflexivity.
Qed.

(** X9.  For requested dates in the unix era, the custom_uptime_ranges
    field of the request splits at the dashes into exactly days + 1
    ranges: that of each requested date, in the order of the dates, and
    then that of the whole span. *)
Theorem requested_ranges_split_back env w apikey days app url fields :
  posted (snd (getSiteData formatNumber env w apikey days app)) =
    posted app ++ [(url, fields)] ->
  inUnixEra (datesOf w days) ->
  exists ranges,
    fieldOf "custom_uptime_ranges" fields = Some ranges /\
    Js.split "-" ranges = List.map rangeOf (datesOf w days) ++ [spanOf w days] /\
    length (Js.split "-" ranges) = S days.
Proof.
  intros H Hera.
  destruct (getSiteData_fetched env w apikey days app url fields H)
    as (Hdays & _ & -> & _).
  eexists. split; [reflexivity|].
  assert (Hsplit :
    Js.split "-" (Js.join "-" (List.map rangeOf (datesOf w days) ++ [spanOf w days])) =
    List.map rangeOf (datesOf w days) ++ [spanOf w days]).
  { apply split_join.
    - intros E. apply app_eq_nil in E as [_ E]. discriminate E.
    - apply Forall_app. split.
      + apply Forall_forall. intros r Hr.
        apply list_elem_of_fmap in Hr as (date & -> & Hdate).
        unfold inUnixEra in Hera. rewrite Forall_forall in Hera.
        destruct (Hera date Hdate) as [H1 H2]. apply rangeOf_dashFree; assumption.
      + constructor; [|constructor].
        destruct days as [|n]; [congruence|].
        unfold inUnixEra in Hera. rewrite Forall_forall in Hera.
        assert (Hold : subtract_days (today w) n ∈ datesOf w (S n)).
        { eapply list_elem_of_lookup_2 with (i := n). unfold datesOf.
          rewrite list_lookup_fmap, lookup_seq_lt by lia. reflexivity. }
        assert (Hnew : subtract_days (today w) 0%nat ∈ datesOf w (S n)).
        { apply elem_of_cons. left. reflexivity. }
        destruct (Hera _ Hold) as [H1 _]. destruct (Hera _ Hnew) as [_ H2].
        unfold spanOf. replace (S n - 1)%nat with n by lia.
        change (includes (pretty (unix (subtract_days (today w) n)) +:+ "_" +:+
                          pretty (unix (add_day (subtract_days (today w) 0%nat)))) "-" = false).
        rewrite !includes_append, (pretty_dashFree _ H1), (pretty_dashFree _ H2).
        reflexivity. }
  split; [exact Hsplit|].
  simpl. rewrite Hsplit, length_app, length_map. unfold datesOf.
  rewrite length_map, length_seq. simpl. lia.
Qed.

End FetcherMore.

Section FetcherCalls.

Context {Dayjs : Type} {dayjs : DayjsLib Dayjs}.
Context {Uptime : Type} (formatNumber : option string -> Uptime).

Implicit Types (env : ImportMetaEnv) (w : @World Dayjs) (app : App).
Implicit Types (dates : list Dayjs).


(** The state after a call, by the way the call ended. *)
Lemma getSiteData_outcome_and_state env w apikey days app :
  match fst (getSiteData formatNumber env w apikey days app) with
  | Rejected _ =>
      siteState (snd (getSiteData formatNumber env w apikey days app)) = "wrong"
  | Pending =>
      siteState (snd (getSiteData formatNumber env w apikey days app)) = "loading" /\
      posted (snd (getSiteData formatNumber env w apikey days app)) = posted app
  | Fulfilled _ =>
      siteState (snd (getSiteData formatNumber env w apikey days app)) = "normal" \/
      siteState (snd (getSiteData formatNumber env w apikey days app)) = "error" \/
      siteState (snd (getSiteData formatNumber env w apikey days app)) = "allError"
  end.
Proof.
  destruct (Nat.eq_dec days 0%nat) as [->|Hdays]; [reflexivity|].
  rewrite (getSiteData_request formatNumber env w apikey days app Hdays).
  assert (Hserve : forall entry,
    let r := serveFromCache formatNumber env entry (datesOf w days)
               (changeSiteState "loading" app) in
    match fst r with
    | Rejected _ => siteState (snd r) = "wrong"
    | Pending => siteState (snd r) = "loading" /\ posted (snd r) = posted app
    | Fulfilled _ =>
        siteState (snd r) = "normal" \/ siteState (snd r) = "error" \/
        siteState (snd r) = "allError"
    end).
  { intros entry. cbv zeta. unfold serveFromCache.
    destruct (sortCached_spec env (changeSiteState "loading" app))
      as (_ & Hs & _ & _ & Hq).
    destruct (dataProcessing formatNumber env (Some (data entry)) (datesOf w days))
      as [processed|e]; cbn [fst snd]; [apply changeSite_settled|].
    rewrite Hs, Hq. auto. }
  assert (Hfetch :
    let r := fetchAndStore formatNumber env w (requestOf w apikey days) (datesOf w days)
               (changeSiteState "loading" app) in
    match fst r with
    | Rejected _ => siteState (snd r) = "wrong"
    | Pending => siteState (snd r) = "loading" /\ posted (snd r) = posted app
    | Fulfilled _ =>
        siteState (snd r) = "normal" \/ siteState (snd r) = "error" \/
        siteState (snd r) = "allError"
    end).
  { cbv zeta. rewrite fetchAndStore_by_reply. cbv zeta.
    destruct (axios_post w _ _) as [[| |p]|]; simpl; auto.
    destruct (bool_decide (stat p = Some "fail")); simpl; [reflexivity|].
    destruct (monitors p) as [l|]; simpl; [|auto].
    destruct (dataProcessing formatNumber env (Some l) (datesOf w days))
      as [processed|e]; simpl; [apply changeSite_settled|reflexivity]. }
  destruct (siteData app) as [entry|]; [|exact Hfetch].
  destruct (timeAtCheck w - timestamp entry <? 60 * 1000); [apply Hserve|exact Hfetch].
Qed.

(** X10.  How a call ends shows in the state: a rejected call leaves the
    state "wrong"; a call whose promise stays pending leaves it
    "loading" and has sent nothing; a fulfilled call leaves it "normal",
    "error" or "allError".  So the state is "loading" after a call only
    if the promise never settles. *)
Theorem getSiteData_state_protocol env w apikey days app :
  (forall e, fst (getSiteData formatNumber env w apikey days app) = Rejected e ->
     siteState (snd (getSiteData formatNumber env w apikey days app)) = "wrong") /\
  (fst (getSiteData formatNumber env w apikey days app) = Pending ->
     siteState (snd (getSiteData formatNumber env w apikey days app)) = "loading" /\
     posted (snd (getSiteData formatNumber env w apikey days app)) = posted app) /\
  (forall processed,
     fst (getSiteData formatNumber env w apikey days app) = Fulfilled processed ->
     siteState (snd (getSiteData formatNumber env w apikey days app)) = "normal" \/
     siteState (snd (getSiteData formatNumber env w apikey days app)) = "error" \/
     siteState (snd (getSiteData formatNumber env w apikey days app)) = "allError").
Proof.
  pose proof (getSiteData_outcome_and_state env w apikey days app) as H.
  split; [|split].
  - intros e E. rewrite E in H. exact H.
  - intros E. rewrite E in H. exact H.
  - intros processed E. rewrite E in H. exact H.
Qed.

(** X11.  A call for zero days is rejected with a TypeError before the
    cache is looked at: nothing is requested, the cache, the overview
    and the favicon stay, and the state is "wrong".  It is the only call
    that is rejected without a request having been sent. *)
Theorem getSiteData_for_zero_days env w apikey days app :
  (days = 0%nat ->
   fst (getSiteData formatNumber env w apikey days app) = Rejected TypeError /\
   snd (getSiteData formatNumber env w apikey days app) =
     {| siteData := siteData app; siteState := "wrong";
        siteOverview := siteOverview app; favicon := favicon app;
        posted := posted app |}) /\
  (forall e,
     fst (getSiteData formatNumber env w apikey days app) = Rejected e ->
     posted (snd (getSiteData formatNumber env w apikey days app)) = posted app ->
     days = 0%nat).
Proof.
  split; [intros ->; split; reflexivity|].
  intros e Hrej Hsent.
  destruct (Nat.eq_dec days 0%nat) as [Hz|Hdays]; [exact Hz|exfalso].
  rewrite (getSiteData_request formatNumber env w apikey days app Hdays) in Hrej, Hsent.
  assert (Hfetch :
    posted (snd (fetchAndStore formatNumber env w (requestOf w apikey days)
                   (datesOf w days) (changeSiteState "loading" app))) <> posted app).
  { rewrite fetchAndStore_posted. simpl. intros E.
    apply (f_equal length) in E. rewrite length_app in E. simpl in E. lia. }
  destruct (siteData app) as [entry|]; [|exact (Hfetch Hsent)].
  destruct (timeAtCheck w - timestamp entry <? 60 * 1000); [|exact (Hfetch Hsent)].
  unfold serveFromCache in Hrej.
  destruct (dataProcessing formatNumber env (Some (data entry)) (datesOf w days));
    discriminate Hrej.
Qed.

(** X12.  When the request succeeds with a body that carries no monitor
    list, the call is fulfilled with [undefined]: the cache keeps what it
    held, the overview and the favicon stay, and the state is "error".
    When the body is null, the call is rejected with a TypeError and the
    state is "wrong"; the cache stays as well. *)
Theorem getSiteData_without_monitor_list env w apikey days app url fields :
  posted (snd (getSiteData formatNumber env w apikey days app)) =
    posted app ++ [(url, fields)] ->
  (noMonitorList (axios_post w url fields) ->
   fst (getSiteData formatNumber env w apikey days app) = Fulfilled None /\
   siteData (snd (getSiteData formatNumber env w apikey days app)) = siteData app /\
   siteOverview (snd (getSiteData formatNumber env w apikey days app)) = siteOverview app /\
   favicon (snd (getSiteData formatNumber env w apikey days app)) = favicon app /\
   siteState (snd (getSiteData formatNumber env w apikey days app)) = "error") /\
  (axios_post w url fields = AxiosResponse NullData ->
   fst (getSiteData formatNumber env w apikey days app) = Rejected TypeError /\
   siteData (snd (getSiteData formatNumber env w apikey days app)) = siteData app /\
   siteState (snd (getSiteData formatNumber env w apikey days app)) = "wrong").
Proof.
  intros H.
  destruct (getSiteData_fetched formatNumber env w apikey days app url fields H)
    as (_ & -> & -> & ->).
  rewrite fetchAndStore_by_reply. cbv zeta. split.
  - intros [E|(p & E & Hstat & Hms)]; rewrite E.
    + repeat split.
    + rewrite bool_decide_false by exact Hstat. rewrite Hms. repeat split.
  - intros E. rewrite E. repeat split.
Qed.

Lemma fetchAndStore_fulfilled env w postdata dates app out :
  fst (fetchAndStore formatNumber env w postdata dates app) = Fulfilled (Some out) ->
  exists l,
    siteData (snd (fetchAndStore formatNumber env w postdata dates app)) =
      Some {| data := displayOrder env l; timestamp := timeAtStore w |} /\
    dataProcessing formatNumber env (Some l) dates = Normal (Some out).
Proof.
  rewrite fetchAndStore_by_reply. cbv zeta.
  destruct (axios_post w _ _) as [[| |p]|]; simpl; try discriminate.
  destruct (bool_decide (stat p = Some "fail")); simpl; [discriminate|].
  destruct (monitors p) as [l|]; simpl; [|discriminate].
  destruct (dataProcessing formatNumber env (Some l) dates) as [processed|e] eqn:E;
    simpl; [|discriminate].
  intros H. injection H as ->. exists l. split; [|exact E].
  rewrite (proj1 (changeSite_keeps _ _)). reflexivity.
Qed.



End FetcherCalls.

(* ===================================================================== *)
(** ** More about the proxy *)
(* ===================================================================== *)

(** X15.  Unless the request is a POST and the server has a non-empty
    key, the handler answers by itself, whatever upstream would say: 405
    for any other method (checked first), 500 for a POST without key;
    nothing is forwarded. *)
Theorem proxy_refuses_without_contact
    (parse : string -> URLSearchParams.t) (serialize : URLSearchParams.t -> string)
    (key : option string)
    (fetch1 fetch2 : string -> string -> completion Proxy.UpstreamReply)
    (req : Proxy.Request) :
  Proxy.method req <> "POST" \/ key = None \/ key = Some "" ->
  Proxy.handler parse serialize key fetch1 req =
    Proxy.handler parse serialize key fetch2 req /\
  Proxy.forwarded parse serialize key req = None /\
  (Proxy.method req <> "POST" ->
   Proxy.handler parse serialize key fetch1 req =
     Normal {| Proxy.status := 405; Proxy.text := "Method Not Allowed";
               Proxy.headers := [] |}) /\
  (Proxy.method req = "POST" ->
   Proxy.handler parse serialize key fetch1 req =
     Normal {| Proxy.status := 500; Proxy.text := "Missing UPTIMEROBOT_API_KEY";
               Proxy.headers := [] |}).
Proof.
  intros H. unfold Proxy.handler, Proxy.forwarded.
  destruct (String.eqb_spec (Proxy.method req) "POST") as [Hpost|Hother]; simpl.
  - destruct H as [H|[->| ->]]; [contradiction| |]; simpl;
      (split; [reflexivity|]; split; [reflexivity|]; split; [contradiction|reflexivity]).
  - split; [reflexivity|]. split; [reflexivity|]. split; [reflexivity|contradiction].
Qed.

(** X16.  What a POST request carries besides api_key goes upstream as
    it came, in the same order, next to the server's key as the only
    api_key; a request whose body cannot be read goes upstream as the key
    alone. *)
Theorem proxy_passes_other_fields
    (parse : string -> URLSearchParams.t) (serialize : URLSearchParams.t -> string)
    (apiKey : string) (req : Proxy.Request) :
  Proxy.method req = "POST" ->
  apiKey <> "" ->
  exists params,
    Proxy.forwarded parse serialize (Some apiKey) req = Some (serialize params) /\
    URLSearchParams.dropName "api_key" params =
      URLSearchParams.dropName "api_key" (parse (Proxy.bodyOf req)) /\
    URLSearchParams.getAll "api_key" params = [apiKey] /\
    (Proxy.body req = None -> parse "" = [] -> params = [("api_key", apiKey)]).
Proof.
  intros Hpost Hkey. exists (Proxy.forwardedParams parse apiKey req).
  assert (Hk : String.eqb apiKey "" = false) by (apply String.eqb_neq; exact Hkey).
  unfold Proxy.forwarded. rewrite Hpost. simpl. rewrite Hk.
  split; [reflexivity|]. unfold Proxy.forwardedParams.
  split; [apply dropName_set|]. split; [apply set_getAll|].
  intros Hbody Hparse. unfold Proxy.bodyOf. rewrite Hbody, Hparse. reflexivity.
Qed.

(* ===================================================================== *)
(** ** The component on what the fetcher delivers *)
(* ===================================================================== *)

Section ComponentFacts.

Context {Dayjs : Type} {dayjs : DayjsLib Dayjs}.
Context {Uptime : Type} (formatNumber : option string -> Uptime).
Variables (atLeast100 atMost0 : Uptime -> bool).

Implicit Types (env : ImportMetaEnv) (w : @World Dayjs) (app : App).
Implicit Types (dates : list Dayjs).

Lemma getSiteData_fulfilled_list env w apikey days app sites :
  fst (getSiteData formatNumber env w apikey days app) = Fulfilled (Some sites) ->
  days <> 0%nat /\
  exists l, dataProcessing formatNumber env (Some l) (datesOf w days) = Normal (Some sites).
Proof.
  intros H. destruct (Nat.eq_dec days 0%nat) as [->|Hdays]; [discriminate H|].
  split; [exact Hdays|].
  rewrite (getSiteData_request formatNumber env w apikey days app Hdays) in H.
  assert (Hfetch :
    fst (fetchAndStore formatNumber env w (requestOf w apikey days) (datesOf w days)
           (changeSiteState "loading" app)) = Fulfilled (Some sites) ->
    exists l, dataProcessing formatNumber env (Some l) (datesOf w days) = Normal (Some sites)).
  { intros E. apply fetchAndStore_fulfilled in E as (l & _ & E). eauto. }
  destruct (siteData app) as [entry|]; [|auto].
  destruct (timeAtCheck w - timestamp entry <? 60 * 1000); [|auto].
  unfold serveFromCache in H.
  destruct (dataProcessing formatNumber env (Some (data entry)) (datesOf w days))
    as [processed|e] eqn:E; simpl in H; [|discriminate].
  injection H as ->. eauto.
Qed.

Lemma renderSite_of_processed dates monitor r oldest :
  last dates = Some oldest ->
  processMonitor formatNumber dates monitor = Normal r ->
  exists t, Component.renderSite atLeast100 atMost0 r = Normal t /\
            Component.day t = oldest /\
            Component.tile_key t = monitor_id monitor /\
            length (Component.lines t) = length dates.
Proof.
  intros Hlast Hr. apply processMonitor_result in Hr.
  destruct Hr as (Hid & _ & _ & _ & Hdate & _).
  unfold Component.renderSite.
  assert (Hl : last (List.map date (daily r)) = Some oldest) by (rewrite Hdate; exact Hlast).
  rewrite fmap_last in Hl.
  destruct (last (daily r)) as [b|]; [|discriminate]. simpl in Hl. injection Hl as Hl.
  eexists. split; [reflexivity|]. simpl. split; [exact Hl|]. split; [exact Hid|].
  rewrite length_map, <- Hdate, length_map. reflexivity.
Qed.

(** X17.  [SiteStatus] on the outcome of a call.  After a rejected call
    it shows the error result; while the promise of a call stays pending
    it shows the loading mark; given the list a call was fulfilled with,
    it shows one tile per site and does not throw: every such site has a
    daily entry per requested day, so the date under the summary is
    there, and it is the oldest requested date; given the [undefined] a
    call was fulfilled with, it shows the loading mark. *)
Theorem render_after_getSiteData env w apikey days app :
  (forall e (given : option (list (@Site Dayjs Uptime))),
     fst (getSiteData formatNumber env w apikey days app) = Rejected e ->
     Component.render atLeast100 atMost0
       (siteState (snd (getSiteData formatNumber env w apikey days app))) given
     = Normal Component.ErrorResult) /\
  (forall given : option (list (@Site Dayjs Uptime)),
     fst (getSiteData formatNumber env w apikey days app) = Pending ->
     Component.render atLeast100 atMost0
       (siteState (snd (getSiteData formatNumber env w apikey days app))) given
     = Normal Component.Loading) /\
  (forall sites,
     fst (getSiteData formatNumber env w apikey days app) = Fulfilled (Some sites) ->
     exists tiles,
       Component.render atLeast100 atMost0
         (siteState (snd (getSiteData formatNumber env w apikey days app))) (Some sites)
       = Normal (Component.Sites tiles) /\
       length tiles = length sites /\
       Forall (fun t => Component.day t = subtract_days (today w) (days - 1) /\
                        length (Component.lines t) = days) tiles) /\
  (fst (getSiteData formatNumber env w apikey days app) = Fulfilled None ->
   Component.render atLeast100 atMost0
     (siteState (snd (getSiteData formatNumber env w apikey days app)))
     (None : option (list (@Site Dayjs Uptime)))
   = Normal Component.Loading).
Proof.
  pose proof (getSiteData_outcome_and_state formatNumber env w apikey days app) as Hout.
  assert (Hrej : forall e,
            fst (getSiteData formatNumber env w apikey days app) = Rejected e ->
            siteState (snd (getSiteData formatNumber env w apikey days app)) = "wrong")
    by (intros e E; rewrite E in Hout; exact Hout).
  assert (Hpend : fst (getSiteData formatNumber env w apikey days app) = Pending ->
            siteState (snd (getSiteData formatNumber env w apikey days app)) = "loading")
    by (intros E; rewrite E in Hout; apply Hout).
  assert (Hful : forall processed,
            fst (getSiteData formatNumber env w apikey days app) = Fulfilled processed ->
            siteState (snd (getSiteData formatNumber env w apikey days app)) = "normal" \/
            siteState (snd (getSiteData formatNumber env w apikey days app)) = "error" \/
            siteState (snd (getSiteData formatNumber env w apikey days app)) = "allError")
    by (intros processed E; rewrite E in Hout; exact Hout).
  split; [|split; [|split]];
    [| | |intros H; destruct (Hful _ H) as [E|[E|E]]; rewrite E; reflexivity].
  - intros e sd H. rewrite (Hrej e H). reflexivity.
  - intros sd H. rewrite (Hpend H). destruct sd; reflexivity.
  - intros sites H.
    destruct (getSiteData_fulfilled_list env w apikey days app sites H) as (Hdays & l & Hl).
    assert (Hstate : negb (String.eqb
               (siteState (snd (getSiteData formatNumber env w apikey days app))) "wrong")
               = true /\
             negb (String.eqb
               (siteState (snd (getSiteData formatNumber env w apikey days app))) "loading")
               = true).
    { destruct (Hful _ H) as [E|[E|E]]; rewrite E; split; reflexivity. }
    destruct Hstate as [Hw Hlo]. unfold Component.render. rewrite Hw, Hlo.
    apply dataProcessing_results in Hl.
    assert (Hlast : last (datesOf w days) = Some (subtract_days (today w) (days - 1))).
    { destruct days as [|n]; [congruence|]. rewrite last_datesOf.
      replace (S n - 1)%nat with n by lia. reflexivity. }
    assert (Hlen : length (datesOf w days) = days)
      by (unfold datesOf; rewrite length_map, length_seq; reflexivity).
    assert (Htiles : exists tiles,
      mapM (Component.renderSite atLeast100 atMost0) sites = Normal tiles /\
      length tiles = length sites /\
      Forall (fun t => Component.day t = subtract_days (today w) (days - 1) /\
                       length (Component.lines t) = days) tiles).
    { clear H Hw Hlo. induction Hl as [|monitor r ms rs Hr _ IH].
      - exists []. repeat split. constructor.
      - destruct IH as (tiles & Hm & Hn & HF).
        destruct (renderSite_of_processed _ monitor r _ Hlast Hr) as (t & Ht & Hday & _ & Hlines).
        exists (t :: tiles). cbn [mapM]. rewrite Ht. cbn [bind]. rewrite Hm. cbn [bind].
        split; [reflexivity|]. split; [simpl; congruence|].
        constructor; [|exact HF]. split; [exact Hday|]. rewrite Hlines. exact Hlen. }
    destruct Htiles as (tiles & Hm & Hn & HF).
    exists tiles. rewrite Hm. cbn [bind]. auto.
Qed.

(** X18.  The status code of a monitor decides how its tile reads: code
    2 gives a normal tile with "Operational", code 9 an error tile with
    "Down", any other code an error tile with "Unknown". *)
Theorem status_code_decides_the_tile env dates data out :
  dataProcessing formatNumber env (Some data) dates = Normal (Some out) ->
  Forall2 (fun monitor r =>
             Component.statusTip r =
               (if monitor_status monitor =? 2 then "Operational"
                else if monitor_status monitor =? 9 then "Down" else "Unknown") /\
             Component.tileClass r =
               (if monitor_status monitor =? 2 then "normal" else "error") /\
             Component.statusClass r =
               (if monitor_status monitor =? 2 then "normal"
                else if monitor_status monitor =? 9 then "error" else "unknown"))
          (displayOrder env data) out.
Proof.
  intros Hout. apply dataProcessing_results in Hout.
  eapply Forall2_impl; [exact Hout|]. intros monitor r Hr.
  apply processMonitor_result in Hr.
  destruct Hr as (_ & _ & _ & _ & _ & _ & _ & _ & Hs).
  unfold Component.statusTip, Component.tileClass, Component.statusClass.
  rewrite Hs. unfold statusText.
  destruct (monitor_status monitor =? 2); [repeat split|].
  destruct (monitor_status monitor =? 9); repeat split.
Qed.

(** X19.  With different day keys for the requested dates, a day on
    which a down-type log of the monitor starts is never drawn as a day
    without data. *)
Theorem day_with_down_event_is_not_blank env dates data out :
  NoDup (List.map format_YYYYMMDD dates) ->
  dataProcessing formatNumber env (Some data) dates = Normal (Some out) ->
  Forall2 (fun monitor r =>
             forall i d b,
               dates !! i = Some d -> daily r !! i = Some b ->
               downLogsOn d monitor <> [] ->
               Component.lineStatus atLeast100 atMost0 b <> "none")
          (displayOrder env data) out.
Proof.
  intros Hnd Hout. apply dataProcessing_results in Hout.
  eapply Forall2_impl; [exact Hout|]. intros monitor r Hr i d b Hd Hb Hlogs.
  destruct (processMonitor_buckets formatNumber dates monitor r Hnd Hr i d b Hd Hb)
    as [Ht _].
  unfold Component.lineStatus.
  destruct (atLeast100 (uptime b)); [discriminate|].
  assert (Hpos : times (down b) <> 0).
  { rewrite Ht. destruct (downLogsOn d monitor); [congruence|]. simpl. lia. }
  destruct (Z.eqb_spec (times (down b)) 0); [contradiction|].
  rewrite andb_false_r. discriminate.
Qed.

End ComponentFacts.

(** X20.  Sorting is idempotent, and [dataProcessing] returns for a list
    that is already in display order what it returns for the list as it
    came: a list that an earlier call has put in order in place is
    processed to the same site list. *)
Theorem processing_ignores_prior_sorting
    {Dayjs : Type} {dayjs : DayjsLib Dayjs} {Uptime : Type}
    (formatNumber : option string -> Uptime)
    (env : ImportMetaEnv) (data : list Monitor) (dates : list Dayjs) :
  displayOrder env (displayOrder env data) = displayOrder env data /\
  dataProcessing formatNumber env (Some (displayOrder env data)) dates =
  dataProcessing formatNumber env (Some data) dates.
Proof.
  split; [apply displayOrder_idempotent|].
  rewrite !dataProcessing_list, displayOrder_idempotent. reflexivity.
Qed.

(* ===================================================================== *)
(** ** The properties on the sample data *)
(* ===================================================================== *)

Import DayjsUTC Sample.

Example dataProcessing_sample :
  dataProcessing showNumber env (Some [wiki; blog]) [D0; D1] =
  Normal (Some [blogSite; wikiSite]).
Proof. vm_compute. reflexivity. Qed.

Example dataProcessing_undefined :
  dataProcessing showNumber env None [D0; D1] = Normal None.
Proof. reflexivity. Qed.

Lemma sample_logs_on_dates :
  Forall (logsOnRequestedDates [D0; D1]) [wiki; blog].
Proof.
  constructor; [constructor|]. constructor; [|constructor].
  constructor; [|constructor; [|constructor]].
  - intros _. apply elem_of_cons. right. apply elem_of_cons. left.
    vm_compute. reflexivity.
  - intros H. vm_compute in H. discriminate H.
Defined.

Lemma downOn12_off_dates :
  dayKey downOn12 ∉ List.map format_YYYYMMDD [D0; D1].
Proof.
  intros H. apply elem_of_cons in H as [H|H]; [vm_compute in H; discriminate H|].
  apply elem_of_cons in H as [H|H]; [vm_compute in H; discriminate H|].
  apply elem_of_nil in H. exact H.
Defined.

(** The amended C1 on the sample. *)
Lemma sample_average_and_daily :
  Forall (logsOnRequestedDates [D0; D1]) [wiki; blog] /\
  exists out,
    dataProcessing showNumber env (Some [wiki; blog]) [D0; D1] = Normal (Some out) /\
    Forall2 (averageAndDaily showNumber [D0; D1]) (displayOrder env [wiki; blog]) out.
Proof.
  split; [exact sample_logs_on_dates|].
  exact (dataProcessing_average_and_daily showNumber env [D0; D1] [wiki; blog]
           sample_logs_on_dates).
Defined.

(** C1 as stated fails: the string of [stray] joins three values and two
    dates are requested, yet [dataProcessing] throws, so there is no site
    record with an average and a daily array. *)
Lemma stray_log_stops_dataProcessing :
  custom_uptime_ranges stray = Js.join "-" ["95.5"; "100.0"; "97.0"] /\
  Forall dashFree ["95.5"; "100.0"; "97.0"] /\
  length ["95.5"; "100.0"; "97.0"] = S (length [D0; D1]) /\
  dataProcessing showNumber env (Some [stray]) [D0; D1] = Throw TypeError /\
  ~ exists out,
      dataProcessing showNumber env (Some [stray]) [D0; D1] = Normal (Some out) /\
      Forall2 (averageAndDaily showNumber [D0; D1]) (displayOrder env [stray]) out.
Proof.
  assert (E : dataProcessing showNumber env (Some [stray]) [D0; D1] = Throw TypeError)
    by (vm_compute; reflexivity).
  split; [reflexivity|]. split; [repeat constructor|]. split; [reflexivity|].
  split; [exact E|]. intros (out & H & _). rewrite E in H. discriminate H.
Qed.

(** The amended C2 on the sample: the first log of [blog], met by the fold
    in its initial state. *)
Lemma sample_down_log_bumps_one_bucket :
  onRequestedDate [D0; D1] downOn13 /\
  exists total' daily',
    calculateTotal (fst (initDays showNumber blog [D0; D1]))
      (noDown, snd (initDays showNumber blog [D0; D1])) downOn13
      = Normal (total', daily') /\
    (log_type downOn13 = 1 ->
     bumpsOneBucket (snd (initDays showNumber blog [D0; D1])) daily' downOn13) /\
    (log_type downOn13 <> 1 -> daily' = snd (initDays showNumber blog [D0; D1])).
Proof.
  assert (H : onRequestedDate [D0; D1] downOn13).
  { intros _. apply elem_of_cons. right. apply elem_of_cons. left.
    vm_compute. reflexivity. }
  split; [exact H|].
  exact (calculateTotal_bumps_the_matching_bucket showNumber [D0; D1] blog []
           downOn13 noDown (snd (initDays showNumber blog [D0; D1])) eq_refl H).
Defined.

(** C2 as stated fails: [downOn12] is of the down type, yet the reducer
    throws on it and raises the counter of no bucket. *)
Lemma down_log_off_dates_bumps_no_bucket :
  log_type downOn12 = 1 /\
  calculateTotal (fst (initDays showNumber stray [D0; D1]))
    (noDown, snd (initDays showNumber stray [D0; D1])) downOn12 = Throw TypeError /\
  ~ exists total' daily',
      calculateTotal (fst (initDays showNumber stray [D0; D1]))
        (noDown, snd (initDays showNumber stray [D0; D1])) downOn12
        = Normal (total', daily') /\
      bumpsOneBucket (snd (initDays showNumber stray [D0; D1])) daily' downOn12.
Proof.
  assert (E : calculateTotal (fst (initDays showNumber stray [D0; D1]))
                (noDown, snd (initDays showNumber stray [D0; D1])) downOn12
              = Throw TypeError) by (vm_compute; reflexivity).
  split; [reflexivity|]. split; [exact E|].
  intros (t & d & H & _). rewrite E in H. discriminate H.
Qed.

(** C5 on the sample. *)
Lemma sample_status_mapping :
  dataProcessing showNumber env (Some [wiki; blog]) [D0; D1]
    = Normal (Some [blogSite; wikiSite]) /\
  Forall2 statusFollowsCode (displayOrder env [wiki; blog]) [blogSite; wikiSite].
Proof.
  split; [exact dataProcessing_sample|].
  exact (dataProcessing_status_mapping showNumber env [D0; D1] [wiki; blog]
           [blogSite; wikiSite] dataProcessing_sample).
Defined.

(** C9 on the sample: a monitor with a down event on 2023-11-12 while the
    14th and the 13th are requested. *)
Lemma sample_throw_outside_dates :
  dayKey downOn12 = "20231112" /\
  List.map format_YYYYMMDD [D0; D1] = ["20231114"; "20231113"] /\
  dataProcessing showNumber env (Some [blog; stray]) [D0; D1] = Throw TypeError.
Proof.
  split; [vm_compute; reflexivity|]. split; [vm_compute; reflexivity|].
  apply (proj1 (dataProcessing_throws_outside_dates showNumber env [D0; D1]
                  [blog; stray]) stray downOn12).
  - apply elem_of_cons. right. apply elem_of_cons. left. reflexivity.
  - apply elem_of_cons. left. reflexivity.
  - reflexivity.
  - exact downOn12_off_dates.
Defined.

(** C10 on the sample. *)
Lemma sample_total_is_sum :
  dataProcessing showNumber env (Some [wiki; blog]) [D0; D1]
    = Normal (Some [blogSite; wikiSite]) /\
  Forall totalIsSumOfDaily [blogSite; wikiSite].
Proof.
  split; [exact dataProcessing_sample|].
  exact (dataProcessing_total_is_sum_of_daily showNumber env [D0; D1] [wiki; blog]
           [blogSite; wikiSite] dataProcessing_sample).
Defined.

(** The amended C3 on the sample: an entry 30 seconds old is served
    without a request; an empty cache leads to one. *)
Lemma sample_cache_gate :
  (posted (snd (getSiteData showNumber env (world AxiosFailure) "u123-key" 2
                  (appCached [wiki; blog] 1699950000000))) = [] /\
   fst (getSiteData showNumber env (world AxiosFailure) "u123-key" 2
          (appCached [wiki; blog] 1699950000000)) =
     settleTimer (dataProcessing showNumber env (Some [wiki; blog])
                    (datesOf (world AxiosFailure) 2))) /\
  exists url fields,
    posted (snd (getSiteData showNumber env (world AxiosFailure) "u123-key" 2 appEmpty))
      = [] ++ [(url, fields)].
Proof.
  assert (Hdays : 2%nat <> 0%nat) by discriminate.
  split.
  - apply (proj1 (getSiteData_cache_gate showNumber env (world AxiosFailure)
                    "u123-key" 2 (appCached [wiki; blog] 1699950000000) Hdays)
             {| data := [wiki; blog]; timestamp := 1699950000000 |}).
    + reflexivity.
    + vm_compute. reflexivity.
  - apply (proj2 (getSiteData_cache_gate showNumber env (world AxiosFailure)
                    "u123-key" 2 appEmpty Hdays)).
    left. reflexivity.
Defined.

(** C3 as stated fails twice.  Called for zero days with an empty cache,
    [getSiteData] sends no request.  Called ten seconds past midnight with
    an entry stored twenty seconds before midnight, which holds a down
    event of the 12th, a day no longer requested, it returns nothing: the
    promise stays pending. *)
Lemma cache_gate_outside_its_conditions :
  (siteData appEmpty = None /\
   posted (snd (getSiteData showNumber env (world (AxiosResponse (ObjectData okPayload)))
                  "u123-key" 0 appEmpty)) = posted appEmpty /\
   fst (getSiteData showNumber env (world (AxiosResponse (ObjectData okPayload)))
          "u123-key" 0 appEmpty) = Rejected TypeError) /\
  (timeAtCheck worldPastMidnight - 1699919980000 < 60 * 1000 /\
   fst (getSiteData showNumber env worldPastMidnight "u123-key" 2
          (appCached [stray] 1699919980000)) = Pending /\
   ~ exists processed,
       fst (getSiteData showNumber env worldPastMidnight "u123-key" 2
              (appCached [stray] 1699919980000)) = Fulfilled processed).
Proof.
  split; [repeat split|].
  assert (E : fst (getSiteData showNumber env worldPastMidnight "u123-key" 2
                     (appCached [stray] 1699919980000)) = Pending)
    by (vm_compute; reflexivity).
  split; [vm_compute; reflexivity|]. split; [exact E|].
  intros [processed H]. rewrite E in H. discriminate H.
Qed.

(** The amended C4 on the sample: one site "ok" and one "unknown" give
    "error". *)
Lemma sample_rollup :
  siteState (changeSite (Some [blogSite; wikiSite]) appEmpty) = "error" /\
  ~ Forall (fun item : @Site Z string => site_status item = "ok") [blogSite; wikiSite] /\
  ~ Forall (fun item : @Site Z string => site_status item <> "ok") [blogSite; wikiSite].
Proof.
  split; [reflexivity|].
  apply (proj1 (proj2 (proj2 (changeSite_rollup [blogSite; wikiSite] appEmpty
                                "./images/favicon.ico" eq_refl)))).
  reflexivity.
Defined.

(** C4 as stated fails twice.  On the empty list no site is "ok", and
    the state is "normal", not "allError".  On a page without the favicon
    link the state is "error" although every site is "ok". *)
Lemma rollup_outside_its_conditions :
  (Forall (fun item : @Site Z string => site_status item <> "ok") [] /\
   siteState (changeSite (Some ([] : list (@Site Z string))) appEmpty) = "normal" /\
   ~ (siteState (changeSite (Some ([] : list (@Site Z string))) appEmpty) = "allError" <->
      Forall (fun item : @Site Z string => site_status item <> "ok") [])) /\
  (Forall (fun item : @Site Z string => site_status item = "ok") [blogSite] /\
   siteState (changeSite (Some [blogSite]) appNoFavicon) = "error" /\
   ~ (siteState (changeSite (Some [blogSite]) appNoFavicon) = "normal" <->
      Forall (fun item : @Site Z string => site_status item = "ok") [blogSite])).
Proof.
  split.
  - split; [constructor|]. split; [reflexivity|].
    intros [_ H]. assert (E := H ltac:(constructor)). discriminate E.
  - assert (Hok : Forall (fun item : @Site Z string => site_status item = "ok") [blogSite])
      by (repeat constructor).
    split; [exact Hok|]. split; [reflexivity|].
    intros [_ H]. assert (E := H Hok). discriminate E.
Qed.

Lemma wiki_unmatched : ~ matched "Blog, API" wiki.
Proof.
  intros H. unfold matched in H.
  apply elem_of_cons in H as [H|H]; [vm_compute in H; discriminate H|].
  apply elem_of_cons in H as [H|H]; [vm_compute in H; discriminate H|].
  apply elem_of_nil in H. exact H.
Defined.

Example displayOrder_sample :
  displayOrder env [wiki; blog; stray; wiki] = [blog; stray; wiki; wiki].
Proof. vm_compute. reflexivity. Qed.

(** The amended C6 on the sample: what follows a monitor outside the list
    is outside the list. *)
Lemma sample_outside_the_list_last :
  displayOrder env [wiki; blog; stray; wiki] !! 2%nat = Some wiki /\
  ~ matched "Blog, API" wiki /\
  priorityOf (siteSortArr_of "Blog, API") wiki = 0.
Proof.
  split; [vm_compute; reflexivity|].
  destruct (sites_outside_the_list_come_last env "Blog, API"
              [wiki; blog; stray; wiki] eq_refl) as (_ & Hzero & _ & Hafter).
  split.
  - apply (Hafter 2%nat 3%nat wiki wiki).
    + lia.
    + vm_compute. reflexivity.
    + vm_compute. reflexivity.
    + exact wiki_unmatched.
  - apply Hzero. exact wiki_unmatched.
Defined.

(** C6 as stated fails: there is no configured list and no monitor list
    for which the order of [dataProcessing] has a monitor outside the list
    ahead of one whose trimmed name is the list's lowest-priority entry. *)
Lemma no_unmatched_site_precedes_the_lowest_priority_one :
  ~ exists (env : ImportMetaEnv) (siteSort : string) (data : list Monitor)
           (i j : nat) (vi vj : Monitor),
      VITE_SITE_SORT env = Some siteSort /\
      (i < j)%nat /\
      displayOrder env data !! i = Some vi /\
      displayOrder env data !! j = Some vj /\
      ~ matched siteSort vi /\
      lowestPriorityName siteSort = Some (Js.trim (friendly_name vj)).
Proof.
  intros (e & siteSort & l & i & j & vi & vj & He & Hij & Hi & Hj & Hun & Hlow).
  apply (unmatched_then_unmatched e siteSort l i j vi vj He Hij Hi Hj Hun).
  eapply lowestPriorityName_matched; [exact Hlow|reflexivity].
Qed.

Lemma sample_bodies_same_but_key :
  Proxy.sameButKey Proxy.plainParse (Proxy.bodyOf request1) (Proxy.bodyOf request2).
Proof.
  unfold Proxy.sameButKey.
  change (Proxy.plainParse (Proxy.bodyOf request1))
    with [("api_key", "from-client"); ("format", "json"); ("logs", "1")].
  change (Proxy.plainParse (Proxy.bodyOf request2))
    with [("api_key", "another"); ("format", "json"); ("logs", "1")].
  constructor; [split; [reflexivity|intros H; exfalso; apply H; reflexivity]|].
  constructor; [split; reflexivity|].
  constructor; [split; reflexivity|]. constructor.
Defined.

(** C7 on the sample: both requests go upstream as the same body, with the
    server's key. *)
Lemma sample_proxy_key :
  Proxy.forwarded Proxy.plainParse Proxy.plainSerialize (Some "server-key") request1
    = Some "api_key=server-key&format=json&logs=1" /\
  Proxy.forwarded Proxy.plainParse Proxy.plainSerialize (Some "server-key") request1
    = Proxy.forwarded Proxy.plainParse Proxy.plainSerialize (Some "server-key") request2.
Proof.
  assert (Hkey : "server-key" <> "") by discriminate.
  destruct (proxy_forwards_the_server_key Proxy.plainParse Proxy.plainSerialize
              upstream "server-key" request1 request2 eq_refl eq_refl Hkey
              sample_bodies_same_but_key) as (Hf & _ & _ & Hsame).
  split; [|exact Hsame]. rewrite Hf. vm_compute. reflexivity.
Defined.

Example getSiteData_posts_sample :
  posted (snd (getSiteData showNumber env (world AxiosFailure) "u123-key" 2
                 (appCached [blog] 1699940000000)))
  = [(requestUrl, requestFields)].
Proof. vm_compute. reflexivity. Qed.


(** A cache hit puts the cached array in display order and changes
    nothing else in the cache. *)
Example cache_hit_sorts_the_cached_array :
  siteData (snd (getSiteData showNumber env (world AxiosFailure) "u123-key" 2
                   (appCached [wiki; blog] 1699950000000)))
  = Some {| data := [blog; wiki]; timestamp := 1699950000000 |}.
Proof. vm_compute. reflexivity. Qed.


(* ===================================================================== *)
(** ** The further properties on the sample data *)
(* ===================================================================== *)

Import Cases.

Example dataProcessing_short :
  dataProcessing showNumber env (Some [short]) [D0; D1] = Normal (Some [shortSite]).
Proof. vm_compute. reflexivity. Qed.

Lemma sample_keys_differ : NoDup (List.map format_YYYYMMDD [D0; D1]).
Proof.
  change (NoDup ["20231114"; "20231113"]).
  apply NoDup_cons. split.
  - intros H. apply elem_of_cons in H as [H|H]; [discriminate H|].
    apply elem_of_nil in H. exact H.
  - apply NoDup_cons. split; [apply not_elem_of_nil|apply NoDup_nil_2].
Defined.

(** X1 on the sample. *)
Lemma sample_keeps_every_monitor :
  length [blogSite; wikiSite] = length [wiki; blog] /\
  Forall2 (fun monitor (r : @Site Z string) =>
             site_id r = monitor_id monitor /\
             site_name r = friendly_name monitor /\
             site_url r = monitor_url monitor)
          (displayOrder env [wiki; blog]) [blogSite; wikiSite].
Proof.
  exact (proj2 (dataProcessing_keeps_every_monitor showNumber env [D0; D1] [wiki; blog]
                  [blogSite; wikiSite] dataProcessing_sample)).
Defined.

(** X2 on the sample: the second day of [short] has no value. *)
Lemma sample_daily_for_short_string :
  Forall2 (fun monitor (r : @Site Z string) =>
             List.map date (daily r) = [D0; D1] /\
             forall i b, daily r !! i = Some b ->
               ((S i < length (splitRanges monitor))%nat ->
                uptime b = showNumber (splitRanges monitor !! i)) /\
               ((length (splitRanges monitor) <= S i)%nat ->
                uptime b = showNumber None))
          (displayOrder env [short]) [shortSite].
Proof.
  exact (dataProcessing_daily_for_any_string showNumber env [D0; D1] [short]
           [shortSite] dataProcessing_short).
Defined.

(** X3 on the sample. *)
Lemma sample_total_counts_down_logs :
  Forall2 (fun monitor (r : @Site Z string) =>
             times (total r) = Z.of_nat (length (downLogs monitor)) /\
             duration (total r) = totalDuration (downLogs monitor))
          (displayOrder env [wiki; blog]) [blogSite; wikiSite].
Proof.
  exact (total_counts_the_down_logs showNumber env [D0; D1] [wiki; blog]
           [blogSite; wikiSite] dataProcessing_sample).
Defined.

(** X4 on the sample. *)
Lemma sample_bucket_counts :
  Forall2 (fun monitor (r : @Site Z string) =>
             forall i d b,
               [D0; D1] !! i = Some d -> daily r !! i = Some b ->
               times (down b) = Z.of_nat (length (downLogsOn d monitor)) /\
               duration (down b) = totalDuration (downLogsOn d monitor))
          (displayOrder env [wiki; blog]) [blogSite; wikiSite].
Proof.
  exact (bucket_counts_the_logs_of_its_day showNumber env [D0; D1] [wiki; blog]
           [blogSite; wikiSite] sample_keys_differ dataProcessing_sample).
Defined.

Lemma sample_list_NoDup : NoDup (List.map Js.trim (Js.split "," "Blog, API")).
Proof.
  change (NoDup ["Blog"; "API"]).
  apply NoDup_cons. split.
  - intros H. apply elem_of_cons in H as [H|H]; [discriminate H|].
    apply elem_of_nil in H. exact H.
  - apply NoDup_cons. split; [apply not_elem_of_nil|apply NoDup_nil_2].
Defined.

(** X5 on the sample: "Blog" is listed before "API". *)
Lemma sample_named_sites_in_list_order :
  displayOrder env [wiki; stray; blog] !! 0%nat = Some blog /\
  displayOrder env [wiki; stray; blog] !! 1%nat = Some stray /\
  (0 < 1)%nat.
Proof.
  assert (H0 : displayOrder env [wiki; stray; blog] !! 0%nat = Some blog)
    by (vm_compute; reflexivity).
  assert (H1 : displayOrder env [wiki; stray; blog] !! 1%nat = Some stray)
    by (vm_compute; reflexivity).
  split; [exact H0|]. split; [exact H1|].
  exact (named_sites_follow_the_list env "Blog, API" [wiki; stray; blog]
           0%nat 1%nat 0%nat 1%nat blog stray eq_refl sample_list_NoDup
           (Nat.lt_0_1) eq_refl eq_refl H0 H1).
Defined.

(** X6 on the sample: the two monitors outside the list keep their
    order. *)
Lemma sample_equal_priority_order :
  withPriority (siteSortArr_of "Blog, API") 0 (displayOrder env [wiki; blog; short]) =
  withPriority (siteSortArr_of "Blog, API") 0 [wiki; blog; short].
Proof.
  exact (equal_priority_keeps_input_order env "Blog, API" [wiki; blog; short] 0 eq_refl).
Defined.

(** X7 on the sample. *)
Lemma sample_overview_counts :
  count (siteOverview (changeSite (Some [blogSite; wikiSite]) appEmpty)) = 2%nat /\
  okCount (siteOverview (changeSite (Some [blogSite; wikiSite]) appEmpty)) = 1%nat /\
  downCount (siteOverview (changeSite (Some [blogSite; wikiSite]) appEmpty)) = 0%nat.
Proof.
  destruct (overview_counts_monitors_by_code showNumber env [D0; D1] [wiki; blog]
              [blogSite; wikiSite] appEmpty "./images/favicon.ico"
              dataProcessing_sample eq_refl) as (Hc & Hok & Hdown & _).
  rewrite Hc, Hok, Hdown. repeat split.
Defined.


Lemma sample_dates_in_unix_era : inUnixEra (datesOf (world AxiosFailure) 2).
Proof.
  unfold inUnixEra. change (datesOf (world AxiosFailure) 2) with [D0; D1].
  repeat constructor; vm_compute; discriminate.
Defined.

(** X9 on the sample: three ranges for two days. *)
Lemma sample_ranges_split_back :
  exists ranges,
    fieldOf "custom_uptime_ranges" requestFields = Some ranges /\
    Js.split "-" ranges =
      List.map rangeOf (datesOf (world AxiosFailure) 2) ++ [spanOf (world AxiosFailure) 2] /\
    length (Js.split "-" ranges) = 3%nat.
Proof.
  exact (requested_ranges_split_back showNumber env (world AxiosFailure) "u123-key" 2
           (appCached [blog] 1699940000000) requestUrl requestFields
           getSiteData_posts_sample sample_dates_in_unix_era).
Defined.

(** X10 on the sample: a failing request leaves the state "wrong". *)
Lemma sample_state_after_rejection :
  siteState (snd (getSiteData showNumber env (world AxiosFailure) "u123-key" 2
                    (appCached [blog] 1699940000000))) = "wrong".
Proof.
  apply (proj1 (getSiteData_state_protocol showNumber env (world AxiosFailure)
                  "u123-key" 2 (appCached [blog] 1699940000000)) AxiosError).
  vm_compute. reflexivity.
Defined.

(** X11 on the sample: a call for zero days is rejected with a TypeError
    and leaves the record of the requests alone. *)
Lemma sample_zero_days_rejected :
  fst (getSiteData showNumber env (world AxiosFailure) "u123-key" 0
         (appCached [blog] 1699940000000)) = Rejected TypeError /\
  posted (snd (getSiteData showNumber env (world AxiosFailure) "u123-key" 0
                 (appCached [blog] 1699940000000)))
  = posted (appCached [blog] 1699940000000).
Proof.
  destruct (proj1 (getSiteData_for_zero_days showNumber env (world AxiosFailure)
                     "u123-key" 0 (appCached [blog] 1699940000000)) eq_refl)
    as [Hfst Hsnd].
  split; [exact Hfst|]. rewrite Hsnd. reflexivity.
Defined.

Example getSiteData_posts_bare :
  posted (snd (getSiteData showNumber env (world (AxiosResponse (ObjectData barePayload)))
                 "u123-key" 2 (appCached [blog] 1699940000000)))
  = posted (appCached [blog] 1699940000000) ++ [(requestUrl, requestFields)].
Proof. vm_compute. reflexivity. Qed.

(** X12 on the sample: a body without monitors. *)
Lemma sample_without_monitor_list :
  fst (getSiteData showNumber env (world (AxiosResponse (ObjectData barePayload)))
         "u123-key" 2 (appCached [blog] 1699940000000)) = Fulfilled None /\
  siteData (snd (getSiteData showNumber env (world (AxiosResponse (ObjectData barePayload)))
                   "u123-key" 2 (appCached [blog] 1699940000000)))
    = Some {| data := [blog]; timestamp := 1699940000000 |} /\
  siteState (snd (getSiteData showNumber env (world (AxiosResponse (ObjectData barePayload)))
                    "u123-key" 2 (appCached [blog] 1699940000000))) = "error".
Proof.
  destruct (proj1 (getSiteData_without_monitor_list showNumber env
                     (world (AxiosResponse (ObjectData barePayload))) "u123-key" 2
                     (appCached [blog] 1699940000000) requestUrl requestFields
                     getSiteData_posts_bare))
    as (H1 & H2 & _ & _ & H3).
  - right. exists barePayload. split; [reflexivity|]. split; [discriminate|reflexivity].
  - split; [exact H1|]. split; [exact H2|exact H3].
Defined.

Example getSiteData_first_call :
  fst (getSiteData showNumber env (world (AxiosResponse (ObjectData okPayload)))
         "u123-key" 2 appEmpty) = Fulfilled (Some [blogSite; wikiSite]).
Proof. vm_compute. reflexivity. Qed.





(** X15 on the sample: a GET is answered with 405. *)
Lemma sample_proxy_refuses_get :
  Proxy.handler Proxy.plainParse Proxy.plainSerialize (Some "server-key") upstream getRequest
  = Normal {| Proxy.status := 405; Proxy.text := "Method Not Allowed";
              Proxy.headers := [] |}.
Proof.
  assert (Hget : Proxy.method getRequest <> "POST") by discriminate.
  exact (proj1 (proj2 (proj2 (proxy_refuses_without_contact Proxy.plainParse
           Proxy.plainSerialize (Some "server-key") upstream upstream getRequest
           (or_introl Hget)))) Hget).
Defined.

(** X16 on the sample: the unreadable request goes upstream as the key
    alone. *)
Lemma sample_proxy_other_fields :
  exists params,
    Proxy.forwarded Proxy.plainParse Proxy.plainSerialize (Some "server-key") unreadable
      = Some (Proxy.plainSerialize params) /\
    params = [("api_key", "server-key")].
Proof.
  assert (Hkey : "server-key" <> "") by discriminate.
  destruct (proxy_passes_other_fields Proxy.plainParse Proxy.plainSerialize
              "server-key" unreadable eq_refl Hkey) as (params & Hf & _ & _ & Hp).
  exists params. split; [exact Hf|]. apply Hp; reflexivity.
Defined.

(** X17 on the sample: the list of the first call is shown as two
    tiles. *)
Lemma sample_render_after_call :
  exists tiles,
    Component.render textAtLeast100 textAtMost0
      (siteState (snd (getSiteData showNumber env
                         (world (AxiosResponse (ObjectData okPayload)))
                         "u123-key" 2 appEmpty)))
      (Some [blogSite; wikiSite]) = Normal (Component.Sites tiles) /\
    length tiles = 2%nat.
Proof.
  destruct (proj1 (proj2 (proj2 (render_after_getSiteData showNumber textAtLeast100
                            textAtMost0
                            env (world (AxiosResponse (ObjectData okPayload)))
                            "u123-key" 2 appEmpty)))
              [blogSite; wikiSite] getSiteData_first_call)
    as (tiles & Hr & Hn & _).
  exists tiles. split; [exact Hr|exact Hn].
Defined.

(** X18 on the sample. *)
Lemma sample_status_code_tiles :
  Forall2 (fun monitor (r : @Site Z string) =>
             Component.statusTip r =
               (if monitor_status monitor =? 2 then "Operational"
                else if monitor_status monitor =? 9 then "Down" else "Unknown") /\
             Component.tileClass r =
               (if monitor_status monitor =? 2 then "normal" else "error") /\
             Component.statusClass r =
               (if monitor_status monitor =? 2 then "normal"
                else if monitor_status monitor =? 9 then "error" else "unknown"))
          (displayOrder env [wiki; blog]) [blogSite; wikiSite].
Proof.
  exact (status_code_decides_the_tile showNumber env [D0; D1] [wiki; blog]
           [blogSite; wikiSite] dataProcessing_sample).
Defined.

(** X19 on the sample. *)
Lemma sample_down_day_not_blank :
  Forall2 (fun monitor (r : @Site Z string) =>
             forall i d b,
               [D0; D1] !! i = Some d -> daily r !! i = Some b ->
               downLogsOn d monitor <> [] ->
               Component.lineStatus textAtLeast100 textAtMost0 b <> "none")
          (displayOrder env [wiki; blog]) [blogSite; wikiSite].
Proof.
  exact (day_with_down_event_is_not_blank showNumber textAtLeast100 textAtMost0 env
           [D0; D1] [wiki; blog] [blogSite; wikiSite]
           sample_keys_differ dataProcessing_sample).
Defined.
